(** * Structural interface conformance ([interfaced])

    A shallow embedding of [src/interfaced/__init__.py]: the signature
    objects ([PropertySignature], [universal_signature]), the class
    fingerprint [ClassSignature] with its four queries, and the [Interface]
    metaclass ([__new__], [__subclasscheck__]).

    The host facilities the module calls ([dir], [getattr], [callable],
    [inspect.signature], [type.__new__], instance creation, object identity)
    are modelled first, as a small state-and-exception monad over a table of
    class objects. *)

From stdpp Require Import base strings list gmap sorting.
From Stdlib Require Import ZArith Ascii.

Local Open Scope string_scope.

(** ** Host exceptions and the monad of effects *)

Inductive exn : Type :=
| TypeError (msg : string)
| AttributeError (msg : string).

Inductive result (A : Type) : Type :=
| Ok (a : A)
| Raise (e : exn).
Arguments Ok {A} a.
Arguments Raise {A} e.

(** ** Host values *)

(** [inspect.Parameter] and [inspect.Signature].  The module is loaded with
    [from __future__ import annotations], so an annotation is the text
    written in the source. *)
Inductive ParameterKind : Type :=
| POSITIONAL_ONLY | POSITIONAL_OR_KEYWORD | VAR_POSITIONAL | KEYWORD_ONLY | VAR_KEYWORD.

Record Param : Type := mkParam {
  p_name : string;
  p_kind : ParameterKind;
  p_annotation : option string
}.

Record Signature : Type := mkSignature {
  parameters : list Param;
  return_annotation : option string
}.

#[global] Instance ParameterKind_eq_dec : EqDecision ParameterKind.
Proof. solve_decision. Defined.
#[global] Instance Param_eq_dec : EqDecision Param.
Proof. solve_decision. Defined.
#[global] Instance Signature_eq_dec : EqDecision Signature.
Proof. solve_decision. Defined.

(** What calling a function does, as far as object construction needs it:
    it returns, or it raises. *)
Inductive body : Type :=
| Pass
| Raises (e : exn).

(** A function object: its identity, its declared shape, whether the attribute
    [__defaultmethod__] has been set on it, and its body. *)
Record function : Type := mkFunction {
  f_id : nat;
  f_signature : Signature;
  f_defaultmethod : bool;
  f_body : body
}.

(** The objects that occur as class attributes.  [PyInstance] is an instance
    of an ordinary user class without [__call__]; like a function it accepts
    new attributes.  [PyProperty] carries the three parts of a [property],
    each of which is [PyNone] when absent. *)
Inductive pyobj : Type :=
| PyNone
| PyInt (z : Z)
| PyStr (s : string)
| PyFunction (f : function)
| PyProperty (id : nat) (fget fset fdel : pyobj)
| PyInstance (id : nat) (defaultmethod : bool).

(** [a is b or a == b] on these objects: numbers and strings by value,
    everything else by identity. *)
Definition py_eq (a b : pyobj) : bool :=
  match a, b with
  | PyNone, PyNone => true
  | PyInt x, PyInt y => bool_decide (x = y)
  | PyStr x, PyStr y => bool_decide (x = y)
  | PyFunction f, PyFunction g => bool_decide (f_id f = f_id g)
  | PyProperty i _ _ _, PyProperty j _ _ _ => bool_decide (i = j)
  | PyInstance i _, PyInstance j _ => bool_decide (i = j)
  | _, _ => false
  end.

(** Among the objects above only a function is callable; built-in
    functions, classes and instances with [__call__] are not represented. *)
Definition callable (obj : pyobj) : bool :=
  match obj with PyFunction _ => true | _ => false end.

Definition is_property (obj : pyobj) : bool :=
  match obj with PyProperty _ _ _ _ => true | _ => false end.

(** [hasattr(obj, "__defaultmethod__")]. *)
Definition has_defaultmethod (obj : pyobj) : bool :=
  match obj with
  | PyFunction f => f_defaultmethod f
  | PyInstance _ b => b
  | _ => false
  end.

(** ** Class objects and the state *)

Inductive metaclass : Type := MetaType | MetaInterface.

#[global] Instance metaclass_eq_dec : EqDecision metaclass.
Proof. solve_decision. Defined.

(** A class is referred to by its index in the class table; index [0] is
    [object]. *)
Record class_obj : Type := mkClass {
  c_name : string;
  c_meta : metaclass;
  c_bases : list nat;
  c_mro : list nat;
  c_dict : gmap string pyobj
}.

Record state : Type := mkState {
  classes : list class_obj;
  next_id : nat
}.

Definition M (A : Type) : Type := state → result (A * state).

Definition ret {A} (a : A) : M A := λ st, Ok (a, st).

Definition bind {A B} (m : M A) (k : A → M B) : M B :=
  λ st, match m st with
        | Ok (a, st') => k a st'
        | Raise e => Raise e
        end.

Definition raise {A} (e : exn) : M A := λ _, Raise e.

Definition get_state : M state := λ st, Ok (st, st).

(** A new object identity. *)
Definition fresh : M nat :=
  λ st, Ok (next_id st, mkState (classes st) (S (next_id st))).

Notation "'let*' x ':=' c 'in' k" := (bind c (λ x, k))
  (at level 10, x name, c at level 100, k at level 200).

Fixpoint mapM {A B} (f : A → M B) (l : list A) : M (list B) :=
  match l with
  | [] => ret []
  | a :: l' => let* b := f a in let* bs := mapM f l' in ret (b :: bs)
  end.

Definition object_init : function :=
  mkFunction 0 (mkSignature [mkParam "self" POSITIONAL_ONLY None;
                             mkParam "args" VAR_POSITIONAL None;
                             mkParam "kwargs" VAR_KEYWORD None] None)
             false Pass.

Definition object_class : class_obj :=
  mkClass "object" MetaType [] [0]
          (<["__init__" := PyFunction object_init]>
             (<["__doc__" := PyStr "The base class of the class hierarchy."]> ∅)).

Definition initial_state : state := mkState [object_class] 1.

Definition lookup_class (cls : nat) : M class_obj :=
  λ st, match classes st !! cls with
        | Some c => Ok (c, st)
        | None => Raise (TypeError "not a class")
        end.

(** *** Method resolution order (C3 linearisation) *)

Definition c3_candidate_ok (seqs : list (list nat)) (c : nat) : bool :=
  forallb (λ s, negb (bool_decide (c ∈ tail s))) seqs.

Fixpoint c3_pick (all seqs : list (list nat)) : option nat :=
  match seqs with
  | [] => None
  | [] :: rest => c3_pick all rest
  | (c :: _) :: rest => if c3_candidate_ok all c then Some c else c3_pick all rest
  end.

Fixpoint c3_merge (fuel : nat) (seqs : list (list nat)) : option (list nat) :=
  if forallb (λ s, bool_decide (s = [])) seqs then Some []
  else match fuel with
       | 0 => None
       | S fuel' =>
           match c3_pick seqs seqs with
           | None => None
           | Some c =>
               match c3_merge fuel' (map (filter (λ x, x ≠ c)) seqs) with
               | Some l => Some (c :: l)
               | None => None
               end
           end
       end.

Definition compute_mro (self : nat) (bases : list nat) (mros : list (list nat))
  : option (list nat) :=
  let seqs := (mros ++ [bases])%list in
  match c3_merge (S (length (concat seqs))) seqs with
  | Some l => Some (self :: l)
  | None => None
  end.

(** [type.__new__(meta, name, bases, dct)]: an empty base list stands for
    [(object,)]; the new class is appended to the class table.  The class
    keeps the entries of [dct]; the entries the host adds or drops on its own
    ([__dict__], [__weakref__], [__doc__], [__qualname__]) all have special
    names and are left out. *)
Definition type_new (meta : metaclass) (name : string) (bases : list nat)
    (dct : gmap string pyobj) : M nat :=
  let bases := match bases with [] => [0] | _ => bases end in
  let* parents := mapM lookup_class bases in
  let* st := get_state in
  let self := length (classes st) in
  match compute_mro self bases (map c_mro parents) with
  | None => raise (TypeError "Cannot create a consistent method resolution order (MRO)")
  | Some mro =>
      λ st, Ok (self, mkState (classes st ++ [mkClass name meta bases mro dct])%list (next_id st))
  end.

(** *** Attribute lookup on a class *)

Fixpoint mro_lookup (tbl : list class_obj) (mro : list nat) (name : string)
  : option pyobj :=
  match mro with
  | [] => None
  | k :: mro' =>
      match tbl !! k with
      | Some c =>
          match c_dict c !! name with
          | Some v => Some v
          | None => mro_lookup tbl mro' name
          end
      | None => mro_lookup tbl mro' name
      end
  end.

(** [getattr(cls, name)]: functions and properties found on a class are
    returned as they are. *)
Definition getattr (cls : nat) (name : string) : M pyobj :=
  let* c := lookup_class cls in
  let* st := get_state in
  match mro_lookup (classes st) (c_mro c) name with
  | Some v => ret v
  | None => raise (AttributeError name)
  end.

Definition mro_names (tbl : list class_obj) (mro : list nat) : gset string :=
  ⋃ (map (λ k, match tbl !! k with Some c => dom (c_dict c) | None => ∅ end) mro).

Definition string_le (a b : string) : Prop := Is_true (String.leb a b).

#[global] Instance string_le_dec : RelDecision string_le.
Proof. intros a b. unfold string_le. apply _. Defined.

(** [dir(cls)]: the attribute names of the class and of its ancestors,
    sorted. *)
Definition dir (cls : nat) : M (list string) :=
  let* c := lookup_class cls in
  let* st := get_state in
  ret (merge_sort string_le (elements (mro_names (classes st) (c_mro c)))).

(** [inspect.signature(obj)] on the objects above: the declared shape of a
    function, [TypeError] for an object that is not callable.  (The
    [ValueError] it raises for some built-in callables does not arise, since
    these are not represented.) *)
Definition signature (obj : pyobj) : M Signature :=
  match obj with
  | PyFunction f => ret (f_signature f)
  | PyNone => raise (TypeError "None is not a callable object")
  | _ => raise (TypeError "object is not a callable object")
  end.

(** Calling an object with one argument: the class for [__new__], the new
    instance for [__init__].  The parameters of the function are not checked
    against the call. *)
Definition call (obj : pyobj) : M unit :=
  match obj with
  | PyFunction f =>
      match f_body f with
      | Pass => ret tt
      | Raises e => raise e
      end
  | _ => raise (TypeError "object is not callable")
  end.

(** [cls()], that is [type.__call__(cls)]: the [__new__] found along the
    method resolution order makes the object, and [__init__] runs on it only
    when it is an instance of [cls].  The class table holds the [__new__] a
    class body defines; when there is none along the order, [object.__new__]
    makes the instance and the [__init__] found along the order runs.  A
    [__new__] that is a function of this development returns [None] or
    raises (see [body]): [None] is no instance of [cls], so [__init__] is
    skipped and [None] is the result. *)
Definition construct (cls : nat) : M pyobj :=
  let* c := lookup_class cls in
  let* st := get_state in
  match mro_lookup (classes st) (c_mro c) "__new__" with
  | Some new =>
      let* _ := call new in
      ret PyNone
  | None =>
      let* id := fresh in
      let* init := getattr cls "__init__" in
      let* _ := call init in
      ret (PyInstance id false)
  end.

(** [def f ...]: a new function object. *)
Definition def_function (sg : Signature) (b : body) : M pyobj :=
  let* id := fresh in
  ret (PyFunction (mkFunction id sg false b)).

(** [property(fget, fset, fdel)]: a new property object. *)
Definition make_property (fget fset fdel : pyobj) : M pyobj :=
  let* id := fresh in
  ret (PyProperty id fget fset fdel).

(** The value of a computation, the final state dropped. *)
Definition eval {A} (m : M A) (st : state) : result A :=
  match m st with
  | Ok (a, _) => Ok a
  | Raise e => Raise e
  end.

(** ** The module [interfaced] *)

Definition startswith (s prefix : string) : bool := String.prefix prefix s.

Definition endswith (s suffix : string) : bool :=
  let n := String.length suffix in
  bool_decide (n ≤ String.length s)%nat &&
  String.eqb (String.substring (String.length s - n)%nat n s) suffix.

Definition is_dunder (methodname : string) : bool :=
  startswith methodname "__" && endswith methodname "__".

Definition get_non_dunder_attrs (cls : nat) : M (list pyobj) :=
  let* names := dir cls in
  mapM (getattr cls) (filter (λ i, ¬ is_dunder i) names).

Module PropertySignature.

(** The class defines no [__eq__]: two of these objects are equal only when
    they are one object, which [id] records. *)
Record t : Type := mk {
  id : nat;
  property : pyobj;
  fget : Signature;
  fset : Signature;
  fdel : Signature
}.

Definition __init__ (target : pyobj) : M t :=
  let* self := fresh in
  match target with
  | PyProperty _ g s d =>
      let* fget := signature g in
      let* fset := signature s in
      let* fdel := signature d in
      ret (mk self target fget fset fdel)
  | _ => raise (AttributeError "fget")
  end.

End PropertySignature.

(** The values [universal_signature] returns: an [inspect.Signature], a
    [PropertySignature], or the object itself. *)
Inductive sigobj : Type :=
| SigSignature (s : Signature)
| SigProperty (p : PropertySignature.t)
| SigObject (o : pyobj).

(** [a is b or a == b] on these values. *)
Definition sig_eq (a b : sigobj) : bool :=
  match a, b with
  | SigSignature s1, SigSignature s2 => bool_decide (s1 = s2)
  | SigProperty p1, SigProperty p2 =>
      bool_decide (PropertySignature.id p1 = PropertySignature.id p2)
  | SigObject o1, SigObject o2 => py_eq o1 o2
  | _, _ => false
  end.

(** [x in l]. *)
Definition py_in (x : sigobj) (l : list sigobj) : bool :=
  existsb (λ e, sig_eq e x) l.

(** [l1 == l2] on lists. *)
Fixpoint py_list_eq (l1 l2 : list sigobj) : bool :=
  match l1, l2 with
  | [], [] => true
  | a :: l1', b :: l2' => sig_eq a b && py_list_eq l1' l2'
  | _, _ => false
  end.

Definition universal_signature (obj : pyobj) : M sigobj :=
  if is_property obj then
    let* p := PropertySignature.__init__ obj in ret (SigProperty p)
  else if callable obj then
    let* s := signature obj in ret (SigSignature s)
  else ret (SigObject obj).

Module ClassSignature.

Record t : Type := mk {
  cls : nat;
  attrs : list pyobj;
  signatures : list sigobj;
  default_attrs : list pyobj
}.

Definition __init__ (cls : nat) : M t :=
  let* attrs := get_non_dunder_attrs cls in
  let* signatures := mapM universal_signature attrs in
  ret (mk cls attrs signatures (filter (λ i, has_defaultmethod i) attrs)).

(** [if isinstance(target, type) : target = ClassSignature(target)] *)
Definition of_target (target : t + nat) : M t :=
  match target with
  | inl sg => ret sg
  | inr cls => __init__ cls
  end.

Definition equals (self : t) (target : t + nat) : M bool :=
  let* target := of_target target in
  ret (py_list_eq (signatures self) (signatures target)).

Definition bases (self : t) (target : t + nat) : M bool :=
  let* target := of_target target in
  let* c := lookup_class (cls self) in
  ret (bool_decide (cls target ∈ c_bases c)).

Fixpoint contains_loop (self_signatures sigs : list sigobj) : bool :=
  match sigs with
  | [] => true
  | sg :: rest =>
      if negb (py_in sg self_signatures) then false
      else contains_loop self_signatures rest
  end.

Definition contains (self : t) (cls : t + nat) : M bool :=
  let* cls := of_target cls in
  ret (contains_loop (signatures self) (signatures cls)).

Fixpoint implements_loop (self_signatures : list sigobj)
    (interface_default_attrs : list pyobj) (isigs : list sigobj) : bool :=
  match isigs with
  | [] => true
  | isig :: rest =>
      if negb (py_in isig self_signatures)
         && negb (py_in isig (map SigObject interface_default_attrs))
      then false
      else implements_loop self_signatures interface_default_attrs rest
  end.

Definition implements (self : t) (interface : t + nat) : M bool :=
  let* interface := of_target interface in
  let* b := bases self (inl interface) in
  if negb b then contains self (inl interface)
  else ret (implements_loop (signatures self) (default_attrs interface)
                            (signatures interface)).

End ClassSignature.

Definition bases (cls parent : nat) : M bool :=
  let* sg := ClassSignature.__init__ cls in
  ClassSignature.bases sg (inr parent).

(** [ClassSignature(subclass).implements(cls)], the conformance query of a
    candidate type against an interface type. *)
Definition isConformant (candidate interface : nat) : M bool :=
  let* sg := ClassSignature.__init__ candidate in
  ClassSignature.implements sg (inr interface).

Module Interface.

Definition var_args : Signature :=
  mkSignature [mkParam "args" VAR_POSITIONAL None;
               mkParam "kwargs" VAR_KEYWORD None] None.

Definition default_initializer (id : nat) : function :=
  mkFunction id var_args false
             (Raises (TypeError "Attempted to initialize Interface")).

Definition __new__ (name : string) (bases : list nat)
    (dct : gmap string pyobj) : M nat :=
  let* id := fresh in
  let dct :=
    if bool_decide ("__init__" ∉ dom dct)
    then <["__init__" := PyFunction (default_initializer id)]> dct
    else dct in
  type_new MetaInterface name bases dct.

(** [super(cls).__subclasscheck__]: a [super] built from one argument is
    unbound, so the name is looked up on the [super] object itself; the
    method lives on [type], and the lookup raises. *)
Definition super_subclasscheck (cls subclass : nat) : M bool :=
  raise (AttributeError "'super' object has no attribute '__subclasscheck__'").

Definition __subclasscheck__ (cls subclass : nat) : M bool :=
  let* c := lookup_class cls in
  if bool_decide (length (c_bases c) ≠ 1) then super_subclasscheck cls subclass
  else isConformant subclass cls.

End Interface.

(** [func.__defaultmethod__ = True; return func].  Numbers, strings, [None]
    and properties take no new attribute.  The object returned has the
    identity of [func]; the mark is set on the value returned, so a reference
    to [func] taken before the call is not updated here. *)
Definition default (func : pyobj) : M pyobj :=
  match func with
  | PyFunction f =>
      ret (PyFunction (mkFunction (f_id f) (f_signature f) true (f_body f)))
  | PyInstance i _ => ret (PyInstance i true)
  | _ => raise (AttributeError "__defaultmethod__")
  end.

(** [class name(bases, metaclass=meta)]: the metaclass is the explicit one
    or the most derived one among the bases' ([Interface] derives from
    [type]). *)
Definition class_statement (meta : option metaclass) (name : string)
    (bases : list nat) (dct : gmap string pyobj) : M nat :=
  let* parents := mapM lookup_class bases in
  if bool_decide (meta = Some MetaInterface)
     || existsb (λ p, bool_decide (c_meta p = MetaInterface)) parents
  then Interface.__new__ name bases dct
  else type_new MetaType name bases dct.

(** ** The classes of [tests/tests.py] and of the scenarios studied below *)

Definition class_body (qualname : string) (members : list (string * pyobj))
  : gmap string pyobj :=
  list_to_map (("__module__", PyStr "__main__")
               :: ("__qualname__", PyStr qualname) :: members).

Definition self_param : Param := mkParam "self" POSITIONAL_OR_KEYWORD None.

(** [(self, a : int) -> r] *)
Definition takes_int (r : string) : Signature :=
  mkSignature [self_param; mkParam "a" POSITIONAL_OR_KEYWORD (Some "int")] (Some r).

(** [(self) -> r] *)
Definition nullary (r : string) : Signature :=
  mkSignature [self_param] (Some r).

(** [(self, value : ty) -> None] *)
Definition setter_sig (ty : string) : Signature :=
  mkSignature [self_param; mkParam "value" POSITIONAL_OR_KEYWORD (Some ty)] (Some "None").

Module Tests.

Definition TestInterface : M nat :=
  let* foo := def_function (takes_int "TestInterface") Pass in
  let* bar := def_function (takes_int "Self") Pass in
  let* baz := def_function (takes_int "Self") Pass in
  let* baz := default baz in
  class_statement (Some MetaInterface) "TestInterface" []
    (class_body "TestInterface" [("foo", foo); ("bar", bar); ("baz", baz)]).

Definition TestA (I : nat) : M nat :=
  let* foo := def_function (takes_int "TestInterface") Pass in
  let* bar := def_function (takes_int "Self") Pass in
  class_statement None "TestA" [I]
    (class_body "TestA" [("foo", foo); ("bar", bar)]).

Definition TestB (I : nat) : M nat :=
  let* foo := def_function (takes_int "TestB") Pass in
  let* bar := def_function (takes_int "Self") Pass in
  class_statement None "TestB" [I]
    (class_body "TestB" [("foo", foo); ("bar", bar)]).

Definition TestD (I : nat) : M nat :=
  let* foo := def_function (takes_int "TestInterface") Pass in
  let* bar := def_function (takes_int "Self") Pass in
  let* baz := def_function (takes_int "Self") Pass in
  class_statement None "TestD" [I]
    (class_body "TestD" [("foo", foo); ("bar", bar); ("baz", baz)]).

Definition TestE : M nat :=
  let* foo := def_function (takes_int "TestInterface") Pass in
  let* bar := def_function (takes_int "Self") Pass in
  let* baz := def_function (takes_int "Self") Pass in
  class_statement None "TestE" []
    (class_body "TestE" [("foo", foo); ("bar", bar); ("baz", baz)]).

End Tests.

Module Scenarios.

(** [Shape]: [area] is required, [describe] is a default. *)
Definition Shape : M nat :=
  let* area := def_function (nullary "float") Pass in
  let* describe := def_function (nullary "str") Pass in
  let* describe := default describe in
  class_statement (Some MetaInterface) "Shape" []
    (class_body "Shape" [("area", area); ("describe", describe)]).

(** Declares [Shape], overrides [area] with the interface's signature and
    the default [describe] with another one. *)
Definition Loud (shape : nat) : M nat :=
  let* area := def_function (nullary "float") Pass in
  let* describe := def_function (nullary "int") Pass in
  class_statement None "Loud" [shape]
    (class_body "Loud" [("area", area); ("describe", describe)]).

(** [TestA] with one more method. *)
Definition TestA_extra (I : nat) : M nat :=
  let* foo := def_function (takes_int "TestInterface") Pass in
  let* bar := def_function (takes_int "Self") Pass in
  let* qux := def_function (nullary "str") Pass in
  class_statement None "TestA_extra" [I]
    (class_body "TestA_extra" [("foo", foo); ("bar", bar); ("qux", qux)]).

(** No declared parent; defines [foo] and [bar] of [TestInterface] and
    leaves the default [baz] out. *)
Definition Partial : M nat :=
  let* foo := def_function (takes_int "TestInterface") Pass in
  let* bar := def_function (takes_int "Self") Pass in
  class_statement None "Partial" []
    (class_body "Partial" [("foo", foo); ("bar", bar)]).

(** One method each, of the same signature, under two names. *)
Definition HasFoo : M nat :=
  let* foo := def_function (nullary "int") Pass in
  class_statement None "HasFoo" [] (class_body "HasFoo" [("foo", foo)]).

Definition HasBar : M nat :=
  let* bar := def_function (nullary "int") Pass in
  class_statement None "HasBar" [] (class_body "HasBar" [("bar", bar)]).

(** A full property [size]: getter, setter and deleter. *)
Definition size_property : M pyobj :=
  let* g := def_function (nullary "int") Pass in
  let* s := def_function (setter_sig "int") Pass in
  let* d := def_function (nullary "None") Pass in
  make_property g s d.

Definition Sized : M nat :=
  let* size := size_property in
  class_statement (Some MetaInterface) "Sized" []
    (class_body "Sized" [("size", size)]).

Definition Box : M nat :=
  let* size := size_property in
  class_statement None "Box" [] (class_body "Box" [("size", size)]).

(** A property with a getter only, as [@property] makes it. *)
Definition readonly_property : M pyobj :=
  let* g := def_function (nullary "int") Pass in
  make_property g PyNone PyNone.

(** An interface with two declared parents. *)
Definition Left : M nat :=
  class_statement None "Left" [] (class_body "Left" []).
Definition Right : M nat :=
  class_statement None "Right" [] (class_body "Right" []).
Definition Both (l r : nat) : M nat :=
  let* run := def_function (nullary "int") Pass in
  class_statement (Some MetaInterface) "Both" [l; r]
    (class_body "Both" [("run", run)]).
Definition Duck : M nat :=
  let* run := def_function (nullary "int") Pass in
  class_statement None "Duck" [] (class_body "Duck" [("run", run)]).

(** An interface that defines its own initializer. *)
Definition WithInit : M nat :=
  let* init := def_function (mkSignature [self_param] None) Pass in
  let* area := def_function (nullary "float") Pass in
  class_statement (Some MetaInterface) "WithInit" []
    (class_body "WithInit" [("__init__", init); ("area", area)]).

(** [def __new__ (cls) : pass] *)
Definition new_returning_nothing : M pyobj :=
  def_function (mkSignature [mkParam "cls" POSITIONAL_OR_KEYWORD None] None) Pass.

(** An interface whose body defines [__new__], which returns nothing, and no
    [__init__]. *)
Definition WithNew : M nat :=
  let* new := new_returning_nothing in
  let* area := def_function (nullary "float") Pass in
  class_statement (Some MetaInterface) "WithNew" []
    (class_body "WithNew" [("__new__", new); ("area", area)]).

(** Declares the interface and defines [foo] and [bar] as [TestA] does, and
    a [__new__] that returns nothing. *)
Definition Quiet (I : nat) : M nat :=
  let* new := new_returning_nothing in
  let* foo := def_function (takes_int "TestInterface") Pass in
  let* bar := def_function (takes_int "Self") Pass in
  class_statement None "Quiet" [I]
    (class_body "Quiet" [("__new__", new); ("foo", foo); ("bar", bar)]).

(** [Tagged] is an interface whose one member [tag] is not a function: an
    instance of the ordinary class [Tag], passed through [default]. *)
Definition Tag : M nat :=
  class_statement None "Tag" [] (class_body "Tag" []).

Definition Tagged (tag_class : nat) : M nat :=
  let* t := construct tag_class in
  let* t := default t in
  class_statement (Some MetaInterface) "Tagged" []
    (class_body "Tagged" [("tag", t)]).

(** Declares [Tagged] and sets [tag = 5]. *)
Definition Child (I : nat) : M nat :=
  class_statement None "Child" [I] (class_body "Child" [("tag", PyInt 5)]).

(** No declared parent; [tag = 5] as in [Child], and one member more. *)
Definition Stranger : M nat :=
  class_statement None "Stranger" []
    (class_body "Stranger" [("tag", PyInt 5); ("extra", PyInt 6)]).

(** [Runner] requires [run].  [Gauge] declares it, defines [run] and has a
    property [size]; [GaugePlus] is [Gauge] with one method more. *)
Definition Runner : M nat :=
  let* run := def_function (nullary "int") Pass in
  class_statement (Some MetaInterface) "Runner" []
    (class_body "Runner" [("run", run)]).

Definition Gauge (I : nat) : M nat :=
  let* run := def_function (nullary "int") Pass in
  let* size := size_property in
  class_statement None "Gauge" [I]
    (class_body "Gauge" [("run", run); ("size", size)]).

Definition GaugePlus (I : nat) : M nat :=
  let* run := def_function (nullary "int") Pass in
  let* size := size_property in
  let* reset := def_function (nullary "None") Pass in
  class_statement None "GaugePlus" [I]
    (class_body "GaugePlus" [("run", run); ("size", size); ("reset", reset)]).

End Scenarios.

(** All of these classes, created one after the other from the initial state.
    The class statements run in the order of the names below, so the classes
    get the numbers from [1] on. *)
Definition load_classes : M (list nat) :=
  let* i := Tests.TestInterface in
  let* a := Tests.TestA i in
  let* b := Tests.TestB i in
  let* d := Tests.TestD i in
  let* e := Tests.TestE in
  let* a' := Scenarios.TestA_extra i in
  let* p := Scenarios.Partial in
  let* sh := Scenarios.Shape in
  let* lo := Scenarios.Loud sh in
  let* hf := Scenarios.HasFoo in
  let* hb := Scenarios.HasBar in
  let* sz := Scenarios.Sized in
  let* bx := Scenarios.Box in
  let* l := Scenarios.Left in
  let* r := Scenarios.Right in
  let* bo := Scenarios.Both l r in
  let* du := Scenarios.Duck in
  let* wi := Scenarios.WithInit in
  ret [i; a; b; d; e; a'; p; sh; lo; hf; hb; sz; bx; l; r; bo; du; wi].

Definition cTestInterface : nat := 1.
Definition cTestA : nat := 2.
Definition cTestE : nat := 5.
Definition cTestA_extra : nat := 6.
Definition cBoth : nat := 16.
Definition cDuck : nat := 17.

(** The state a computation leaves. *)
Definition exec {A} (m : M A) (st : state) : state :=
  match m st with
  | Ok (_, st') => st'
  | Raise _ => st
  end.

Definition world : state := exec load_classes initial_state.

(** [Runner] and its two declared children, created from the initial
    state. *)
Definition load_gauges : M (list nat) :=
  let* r := Scenarios.Runner in
  let* g := Scenarios.Gauge r in
  let* g' := Scenarios.GaugePlus r in
  ret [r; g; g'].

Definition cRunner : nat := 1.
Definition cGauge : nat := 2.
Definition cGaugePlus : nat := 3.

Definition gauges : state := exec load_gauges initial_state.

(** The class object behind a reference. *)
Definition class_at (st : state) (cls : nat) : class_obj :=
  match classes st !! cls with
  | Some c => c
  | None => object_class
  end.

(** The signature [ClassSignature(cls)] builds in a state. *)
Definition signature_in (st : state) (cls : nat) : ClassSignature.t :=
  match ClassSignature.__init__ cls st with
  | Ok (sg, _) => sg
  | Raise _ => ClassSignature.mk cls [] [] []
  end.

(** ** The spec's readings, for comparison with the code *)

(** [[i for i in dir(cls) if not is_dunder(i)]]: the names that
    [ClassSignature.attrs] and [ClassSignature.signatures] are correlated
    with. *)
Definition member_names (cls : nat) : M (list string) :=
  let* names := dir cls in
  ret (filter (λ i, ¬ is_dunder i) names).

(** The spec's accessor equality: getter, setter and deleter signatures equal
    component-wise. *)
Definition spec_accessor_eq (p q : PropertySignature.t) : bool :=
  bool_decide (PropertySignature.fget p = PropertySignature.fget q)
  && bool_decide (PropertySignature.fset p = PropertySignature.fset q)
  && bool_decide (PropertySignature.fdel p = PropertySignature.fdel q).

(** The spec's [contains]: every (name, descriptor) pair of [other] has a pair
    in [self] with the same name and an equal descriptor. *)
Definition spec_contains_by_name (self other : list (string * sigobj)) : bool :=
  forallb (λ nd, existsb (λ nd', bool_decide (nd'.1 = nd.1) && sig_eq nd'.2 nd.2) self)
          other.

(** The spec's subset rule: every interface member that is not tagged default
    has a matching entry in the candidate's signature set. *)
Definition spec_subset_rule (self interface : ClassSignature.t) : bool :=
  forallb (λ ad, has_defaultmethod ad.1 || py_in ad.2 (ClassSignature.signatures self))
          (zip (ClassSignature.attrs interface) (ClassSignature.signatures interface)).

(** The spec's matching of two members that are not accessors: two functions
    of equal signature, or two objects that are neither functions nor
    properties and are equal.  The relation holds of no pair with a property
    in it. *)
Definition member_matches (a' a : pyobj) : bool :=
  match a', a with
  | PyProperty _ _ _ _, _ | _, PyProperty _ _ _ _ => false
  | PyFunction f', PyFunction f => bool_decide (f_signature f' = f_signature f)
  | PyFunction _, _ | _, PyFunction _ => false
  | _, _ => py_eq a' a
  end.

(** A member list extends another: every member of [attrs] that is not a
    property has a matching member in [attrs'], under whatever name. *)
Definition members_extend (attrs' attrs : list pyobj) : bool :=
  forallb (λ a, is_property a || existsb (λ a', member_matches a' a) attrs') attrs.

(** ** [get_defining_class] *)

(** [s.split(sep)] for a separator of one character: the pieces between the
    occurrences, the empty pieces included; never an empty list. *)
Fixpoint split_on (sep : ascii) (s : string) : list string :=
  match s with
  | EmptyString => [""]
  | String c s' =>
      if Ascii.eqb c sep then "" :: split_on sep s'
      else match split_on sep s' with
           | w :: ws => String c w :: ws
           | [] => [String c ""]
           end
  end.

(** [sep.join(l)]. *)
Fixpoint join (sep : string) (l : list string) : string :=
  match l with
  | [] => ""
  | [w] => w
  | w :: ws => w ++ sep ++ join sep ws
  end.

(** Whether a character occurs in a string. *)
Fixpoint has_char (c : ascii) (s : string) : bool :=
  match s with
  | EmptyString => false
  | String a s' => Ascii.eqb a c || has_char c s'
  end.

Section DefiningClass.

(** The function objects of this development carry no qualified name; the
    map from a function to its [__code__.co_qualname] is taken as given. *)
Variable co_qualname : function → string.

(** Only a function has [__code__] among the objects modelled here. *)
Definition get_defining_class (cls : nat) (methodname : string) : M string :=
  let* m := getattr cls methodname in
  match m with
  | PyFunction f => ret (join "." (removelast (split_on "."%char (co_qualname f))))
  | _ => raise (AttributeError "__code__")
  end.

End DefiningClass.

(** ** Vocabulary of the proofs *)

(** A computation that only reads the state. *)
Definition reads_only {A} (m : M A) : Prop :=
  ∀ st a st', m st = Ok (a, st') → st' = st.

(** A computation that may draw identities but leaves the class table as it
    is. *)
Definition keeps_classes {A} (m : M A) : Prop :=
  ∀ st a st', m st = Ok (a, st') → classes st' = classes st.

(** What [universal_signature] returns for an object that is not a
    property. *)
Definition plain_signature (obj : pyobj) : sigobj :=
  match obj with
  | PyFunction f => SigSignature (f_signature f)
  | _ => SigObject obj
  end.

(** The objects from which [universal_signature] can make a value: anything
    but a property one of whose three parts is not a function. *)
Definition extractable (obj : pyobj) : bool :=
  match obj with
  | PyProperty _ g s d => callable g && callable s && callable d
  | _ => true
  end.

(** The value [universal_signature] makes from an attribute, up to the
    identity that a [PropertySignature] draws. *)
Definition descriptor_of (obj : pyobj) (sg : sigobj) : Prop :=
  match obj with
  | PyFunction f => sg = SigSignature (f_signature f)
  | PyProperty _ (PyFunction g) (PyFunction s) (PyFunction d) =>
      ∃ p, sg = SigProperty p
           ∧ PropertySignature.property p = obj
           ∧ PropertySignature.fget p = f_signature g
           ∧ PropertySignature.fset p = f_signature s
           ∧ PropertySignature.fdel p = f_signature d
  | PyProperty _ _ _ _ => False
  | _ => sg = SigObject obj
  end.

(** The identities of the [PropertySignature] objects in a list of values. *)
Definition property_ids (sigs : list sigobj) : list nat :=
  omap (λ sg, match sg with
              | SigProperty p => Some (PropertySignature.id p)
              | _ => None
              end) sigs.

Create HintDb effects discriminated.

(** * Properties *)

(** ** Reasoning about computations *)

Lemma bind_Ok {A B} (m : M A) (k : A → M B) st b st' :
  bind m k st = Ok (b, st') ↔ ∃ a st1, m st = Ok (a, st1) ∧ k a st1 = Ok (b, st').
Proof.
  unfold bind. destruct (m st) as [[a st1]|e]; split.
  - intros H. by exists a, st1.
  - by intros (a' & st1' & [= -> ->] & H).
  - done.
  - by intros (a' & st1' & [=] & _).
Qed.

Lemma bind_step {A B} (m : M A) (k : A → M B) st a st1 :
  m st = Ok (a, st1) → bind m k st = k a st1.
Proof. unfold bind. by intros ->. Qed.

Lemma bind_Raise {A B} (m : M A) (k : A → M B) st e :
  m st = Raise e → bind m k st = Raise e.
Proof. unfold bind. by intros ->. Qed.

Ltac inv_M :=
  repeat match goal with
    | H : bind _ _ _ = Ok _ |- _ =>
        apply bind_Ok in H; destruct H as (? & ? & ? & H)
    | H : ret _ _ = Ok _ |- _ => injection H as <- <-
    | H : raise _ _ = Ok _ |- _ => discriminate H
    | H : get_state _ = Ok _ |- _ => injection H as <- <-
    end.

Lemma reads_only_keeps {A} (m : M A) : reads_only m → keeps_classes m.
Proof. intros H st a st' E. by rewrite (H _ _ _ E). Qed.

Lemma reads_ret {A} (a : A) : reads_only (ret a).
Proof. by intros st a' st' [= _ ->]. Qed.

Lemma reads_raise {A} e : reads_only (@raise A e).
Proof. by intros st a st' [=]. Qed.

Lemma reads_bind {A B} (m : M A) (k : A → M B) :
  reads_only m → (∀ a, reads_only (k a)) → reads_only (bind m k).
Proof.
  intros Hm Hk st b st' (a & st1 & E1 & E2)%bind_Ok.
  rewrite (Hk _ _ _ _ E2). by apply (Hm _ _ _ E1).
Qed.

Lemma reads_get_state : reads_only get_state.
Proof. by intros st a st' [= _ ->]. Qed.

Lemma reads_lookup_class cls : reads_only (lookup_class cls).
Proof.
  intros st a st'. unfold lookup_class.
  destruct (classes st !! cls); by intros [= _ ->].
Qed.

Lemma reads_mapM {A B} (f : A → M B) l :
  (∀ a, reads_only (f a)) → reads_only (mapM f l).
Proof.
  intros Hf. induction l as [|a l IH]; simpl.
  - apply reads_ret.
  - apply reads_bind; [done|]. intros b.
    apply reads_bind; [done|]. intros bs. apply reads_ret.
Qed.

Lemma reads_getattr cls name : reads_only (getattr cls name).
Proof.
  unfold getattr. apply reads_bind; [apply reads_lookup_class|]. intros c.
  intros st a st'. unfold bind, get_state.
  destruct (mro_lookup (classes st) (c_mro c) name); by intros [= _ ->].
Qed.

Lemma reads_dir cls : reads_only (dir cls).
Proof.
  unfold dir. apply reads_bind; [apply reads_lookup_class|]. intros c.
  apply reads_bind; [apply reads_get_state|]. intros st. apply reads_ret.
Qed.

Lemma reads_get_non_dunder_attrs cls : reads_only (get_non_dunder_attrs cls).
Proof.
  unfold get_non_dunder_attrs. apply reads_bind; [apply reads_dir|]. intros names.
  apply reads_mapM. intros i. apply reads_getattr.
Qed.

Lemma reads_signature obj : reads_only (signature obj).
Proof. destruct obj; first [apply reads_ret | apply reads_raise]. Qed.

Lemma keeps_ret {A} (a : A) : keeps_classes (ret a).
Proof. apply reads_only_keeps, reads_ret. Qed.

Lemma keeps_bind {A B} (m : M A) (k : A → M B) :
  keeps_classes m → (∀ a, keeps_classes (k a)) → keeps_classes (bind m k).
Proof.
  intros Hm Hk st b st' (a & st1 & E1 & E2)%bind_Ok.
  rewrite (Hk _ _ _ _ E2). by apply (Hm _ _ _ E1).
Qed.

Lemma keeps_fresh : keeps_classes fresh.
Proof. by intros st a st' [= _ <-]. Qed.

Lemma keeps_mapM {A B} (f : A → M B) l :
  (∀ a, keeps_classes (f a)) → keeps_classes (mapM f l).
Proof.
  intros Hf. induction l as [|a l IH]; simpl.
  - apply keeps_ret.
  - apply keeps_bind; [done|]. intros b.
    apply keeps_bind; [done|]. intros bs. apply keeps_ret.
Qed.

Lemma keeps_PropertySignature_init target :
  keeps_classes (PropertySignature.__init__ target).
Proof.
  unfold PropertySignature.__init__. apply keeps_bind; [apply keeps_fresh|].
  intros self. destruct target; try apply reads_only_keeps, reads_raise.
  repeat (apply keeps_bind; [apply reads_only_keeps, reads_signature|]; intros ?).
  apply keeps_ret.
Qed.

Lemma keeps_universal_signature obj : keeps_classes (universal_signature obj).
Proof.
  unfold universal_signature. destruct (is_property obj).
  - apply keeps_bind; [apply keeps_PropertySignature_init|]. intros; apply keeps_ret.
  - destruct (callable obj); [|apply keeps_ret].
    apply keeps_bind; [apply reads_only_keeps, reads_signature|].
    intros; apply keeps_ret.
Qed.

Lemma keeps_ClassSignature_init cls : keeps_classes (ClassSignature.__init__ cls).
Proof.
  unfold ClassSignature.__init__.
  apply keeps_bind; [apply reads_only_keeps, reads_get_non_dunder_attrs|]. intros attrs.
  apply keeps_bind; [apply keeps_mapM, keeps_universal_signature|]. intros sigs.
  apply keeps_ret.
Qed.

#[global] Hint Resolve reads_ret reads_raise reads_get_state reads_lookup_class
  reads_getattr reads_dir reads_signature reads_get_non_dunder_attrs
  keeps_ret keeps_fresh keeps_universal_signature keeps_ClassSignature_init
  : effects.

Lemma ClassSignature_init_cls c st sg st' :
  ClassSignature.__init__ c st = Ok (sg, st') → ClassSignature.cls sg = c.
Proof. unfold ClassSignature.__init__. intros H. inv_M. done. Qed.

(** ** Equality and membership of signature objects *)

Lemma py_eq_refl o : py_eq o o = true.
Proof. destruct o; simpl; by rewrite ?bool_decide_eq_true. Qed.

Lemma sig_eq_refl d : sig_eq d d = true.
Proof. destruct d; simpl; rewrite ?bool_decide_eq_true; auto using py_eq_refl. Qed.

Lemma py_in_spec x l : py_in x l = true ↔ ∃ e, e ∈ l ∧ sig_eq e x = true.
Proof.
  unfold py_in. induction l as [|a l IH]; simpl.
  - split; [done|]. intros (e & He & _). by apply elem_of_nil in He.
  - rewrite orb_true_iff, IH. split.
    + intros [Ha|(e & He & Heq)].
      * exists a. split; [left|done].
      * exists e. split; [by right|done].
    + intros (e & [->|He]%elem_of_cons & Heq); [by left|right; eauto].
Qed.

Lemma py_in_elem x l : x ∈ l → py_in x l = true.
Proof. intros H. apply py_in_spec. exists x. auto using sig_eq_refl. Qed.

Lemma contains_loop_spec S T :
  ClassSignature.contains_loop S T = true ↔ ∀ d, d ∈ T → py_in d S = true.
Proof.
  induction T as [|sg T IH]; simpl.
  - split; [|done]. intros _ d Hd. by apply elem_of_nil in Hd.
  - destruct (py_in sg S) eqn:E; simpl.
    + rewrite IH. split.
      * intros H d [->|Hd]%elem_of_cons; auto.
      * intros H d Hd. apply H. by right.
    + split; [done|]. intros H. rewrite H in E; [done|left].
Qed.

Lemma implements_loop_spec S D T :
  ClassSignature.implements_loop S D T = true ↔
  ∀ d, d ∈ T → py_in d S = true ∨ py_in d (map SigObject D) = true.
Proof.
  induction T as [|sg T IH]; simpl.
  - split; [|done]. intros _ d Hd. by apply elem_of_nil in Hd.
  - destruct (py_in sg S) eqn:E1; simpl.
    + rewrite IH. split.
      * intros H d [->|Hd]%elem_of_cons; auto.
      * intros H d Hd. apply H. by right.
    + destruct (py_in sg (map SigObject D)) eqn:E2; simpl.
      * rewrite IH. split.
        -- intros H d [->|Hd]%elem_of_cons; auto.
        -- intros H d Hd. apply H. by right.
      * split; [done|]. intros H.
        destruct (H sg) as [H'|H']; [left| |]; congruence.
Qed.

(** The exemption test compares a signature object with the raw attributes in
    [default_attrs]: a function among them never equals the
    [inspect.Signature] made from it. *)
Lemma py_in_default_functions d D :
  (∀ a, a ∈ D → callable a = true) →
  (∀ o, d = SigObject o → callable o = false) →
  py_in d (map SigObject D) = false.
Proof.
  intros HD Hd. apply not_true_is_false. intros (e & He & Heq)%py_in_spec.
  apply list_elem_of_fmap in He as (a & -> & Ha).
  destruct d as [s|p|o]; simpl in Heq; try done.
  specialize (HD a Ha). specialize (Hd o eq_refl).
  destruct a, o; simpl in *; congruence.
Qed.

(** ** The queries of [ClassSignature] on a signature that is already built *)

Lemma bases_inl self target st c :
  classes st !! ClassSignature.cls self = Some c →
  ClassSignature.bases self (inl target) st
  = Ok (bool_decide (ClassSignature.cls target ∈ c_bases c), st).
Proof.
  intros H. unfold ClassSignature.bases, ClassSignature.of_target, bind, ret, lookup_class.
  by rewrite H.
Qed.

Lemma contains_inl self other st :
  ClassSignature.contains self (inl other) st
  = Ok (ClassSignature.contains_loop (ClassSignature.signatures self)
          (ClassSignature.signatures other), st).
Proof. done. Qed.

Lemma keeps_of_target target : keeps_classes (ClassSignature.of_target target).
Proof. destruct target; simpl; auto with effects. Qed.

(** [implements] once the interface's signature is at hand, whether it was
    passed or built from a type. *)
Lemma implements_unfold self target st sI st2 c :
  ClassSignature.of_target target st = Ok (sI, st2) →
  classes st !! ClassSignature.cls self = Some c →
  ClassSignature.implements self target st
  = Ok (if bool_decide (ClassSignature.cls sI ∈ c_bases c)
        then ClassSignature.implements_loop (ClassSignature.signatures self)
               (ClassSignature.default_attrs sI) (ClassSignature.signatures sI)
        else ClassSignature.contains_loop (ClassSignature.signatures self)
               (ClassSignature.signatures sI), st2).
Proof.
  intros Ht Hc. unfold ClassSignature.implements.
  rewrite (bind_step _ _ _ _ _ Ht).
  assert (classes st2 !! ClassSignature.cls self = Some c) as Hc2
    by (by rewrite (keeps_of_target _ _ _ _ Ht)).
  rewrite (bind_step _ _ _ _ _ (bases_inl self sI st2 c Hc2)).
  by destruct (bool_decide _).
Qed.

Lemma implements_Raise self target st e :
  ClassSignature.of_target target st = Raise e →
  ClassSignature.implements self target st = Raise e.
Proof. intros Ht. unfold ClassSignature.implements. by apply bind_Raise. Qed.

(** [isConformant] in terms of the two signatures it builds. *)
Lemma isConformant_unfold candidate interface st sC st1 sI st2 c :
  ClassSignature.__init__ candidate st = Ok (sC, st1) →
  ClassSignature.__init__ interface st1 = Ok (sI, st2) →
  classes st !! candidate = Some c →
  isConformant candidate interface st
  = Ok (if bool_decide (interface ∈ c_bases c)
        then ClassSignature.implements_loop (ClassSignature.signatures sC)
               (ClassSignature.default_attrs sI) (ClassSignature.signatures sI)
        else ClassSignature.contains_loop (ClassSignature.signatures sC)
               (ClassSignature.signatures sI), st2).
Proof.
  intros HC HI Hc. unfold isConformant.
  rewrite (bind_step _ _ _ _ _ HC).
  assert (classes st1 !! ClassSignature.cls sC = Some c) as Hc1.
  { by rewrite (ClassSignature_init_cls _ _ _ _ HC), (keeps_ClassSignature_init _ _ _ _ HC). }
  rewrite (implements_unfold sC (inr interface) st1 sI st2 c HI Hc1).
  by rewrite (ClassSignature_init_cls _ _ _ _ HI).
Qed.

(** ** The assertions of [tests/tests.py] *)

Example tests_py :
  eval (let* i := Tests.TestInterface in
        let* a := Tests.TestA i in
        let* b := Tests.TestB i in
        let* d := Tests.TestD i in
        let* e := Tests.TestE in
        let* ra := Interface.__subclasscheck__ i a in
        let* rb := Interface.__subclasscheck__ i b in
        let* rd := Interface.__subclasscheck__ i d in
        let* re := Interface.__subclasscheck__ i e in
        ret [ra; rb; rd; re]) initial_state
  = Ok [true; false; true; true]
  ∧ eval (let* i := Tests.TestInterface in construct i) initial_state
    = Raise (TypeError "Attempted to initialize Interface").
Proof. split; vm_compute; reflexivity. Qed.

Example load_classes_numbers :
  eval load_classes initial_state
  = Ok [1; 2; 3; 4; 5; 6; 7; 8; 9; 10; 11; 12; 13; 14; 15; 16; 17; 18].
Proof. vm_compute. reflexivity. Qed.

(** ** [contains] *)

Lemma sig_present_iff (S T : list sigobj) :
  (∀ d, d ∈ T → py_in d S = true) ↔
  (∀ d, d ∈ T → ∃ d', d' ∈ S ∧ sig_eq d' d = true).
Proof. split; intros H d Hd; apply py_in_spec; auto. Qed.

(** C2 (as the code has it).  [contains] is true exactly when every descriptor
    of the other signature is equal to some descriptor of this one; member
    names take no part, and this signature may hold more. *)
Theorem C2_contains_iff_descriptors_present (st : state) (self other : ClassSignature.t) :
  ∃ b, ClassSignature.contains self (inl other) st = Ok (b, st)
       ∧ (b = true ↔
          ∀ d, d ∈ ClassSignature.signatures other →
               (∃ d', d' ∈ ClassSignature.signatures self ∧ sig_eq d' d = true)).
Proof.
  eexists. split; [apply contains_inl|].
  by rewrite contains_loop_spec, sig_present_iff.
Qed.

(** C2, counterexample.  [HasBar] has one method [bar], [HasFoo] one method
    [foo], of the same signature: [ClassSignature(HasBar).contains(HasFoo)]
    is true although no pair of [HasFoo] has a pair of the same name in
    [HasBar]. *)
Lemma C2_contains_ignores_names :
  eval (let* T := Scenarios.HasFoo in
        let* S := Scenarios.HasBar in
        let* sS := ClassSignature.__init__ S in
        let* sT := ClassSignature.__init__ T in
        let* nS := member_names S in
        let* nT := member_names T in
        let* r := ClassSignature.contains sS (inl sT) in
        ret (nS, nT, r,
             spec_contains_by_name (zip nS (ClassSignature.signatures sS))
                                   (zip nT (ClassSignature.signatures sT))))
       initial_state
  = Ok (["bar"], ["foo"], true, false).
Proof. vm_compute. reflexivity. Qed.

(** ** [implements] *)

Lemma py_eq_trans a b c : py_eq a b = true → py_eq b c = true → py_eq a c = true.
Proof.
  destruct a, b, c; simpl; try done;
    rewrite !bool_decide_eq_true; congruence.
Qed.

Lemma sig_eq_trans a b c : sig_eq a b = true → sig_eq b c = true → sig_eq a c = true.
Proof.
  destruct a, b, c; simpl; try done;
    first [apply py_eq_trans | rewrite !bool_decide_eq_true; congruence].
Qed.

Lemma py_in_extend x S S' :
  ClassSignature.contains_loop S' S = true → py_in x S = true → py_in x S' = true.
Proof.
  rewrite contains_loop_spec. intros HS (e & He & Heq)%py_in_spec.
  apply HS in He as (e' & He' & Heq')%py_in_spec.
  apply py_in_spec. exists e'. eauto using sig_eq_trans.
Qed.

(** C1 (the code at the failing input).  [Loud] declares [Shape] as its
    parent and overrides the required [area] with the interface's own
    signature, so every member of [Shape] that is not tagged default has a
    matching entry; it also overrides the default [describe], with another
    signature.  The check answers false: the exemption test looks for the
    signature object among the raw attributes of [default_attrs], where a
    function's signature is never found. *)
Theorem C1_overridden_default_is_not_exempted :
  eval (let* I := Scenarios.Shape in
        let* C := Scenarios.Loud I in
        let* sC := ClassSignature.__init__ C in
        let* sI := ClassSignature.__init__ I in
        let* declared := ClassSignature.bases sC (inl sI) in
        let* r := ClassSignature.implements sC (inl sI) in
        let* r' := isConformant C I in
        ret (declared, spec_subset_rule sC sI, r, r')) initial_state
  = Ok (true, true, false, false).
Proof. vm_compute. reflexivity. Qed.

(** With functions as the default members, the declared-parent branch
    decides exactly as full containment does. *)
Lemma implements_loop_default_functions S D T :
  (∀ a, a ∈ D → callable a = true) →
  (∀ o, SigObject o ∈ T → callable o = false) →
  ClassSignature.implements_loop S D T = ClassSignature.contains_loop S T.
Proof.
  intros HD. induction T as [|sg T IH]; intros HT; simpl; [done|].
  rewrite (py_in_default_functions sg D HD).
  - rewrite andb_true_r, IH; [done|]. intros o Ho. apply HT. by right.
  - intros o ->. apply HT. left.
Qed.

Lemma universal_signature_SigObject obj st sg st' :
  universal_signature obj st = Ok (sg, st') →
  ∀ o, sg = SigObject o → callable o = false.
Proof.
  unfold universal_signature. intros H o ->.
  destruct (is_property obj); [by inv_M|].
  destruct (callable obj) eqn:E; [by inv_M|].
  by injection H as <- _.
Qed.

Lemma mapM_universal_signature_SigObject attrs st sigs st' :
  mapM universal_signature attrs st = Ok (sigs, st') →
  ∀ o, SigObject o ∈ sigs → callable o = false.
Proof.
  revert st sigs st'. induction attrs as [|a attrs IH]; simpl; intros st sigs st' H o Ho.
  - injection H as <- _. by apply elem_of_nil in Ho.
  - inv_M. apply elem_of_cons in Ho as [Ho|Ho]; eauto using universal_signature_SigObject.
Qed.

(** For an interface whose default members are all functions, as the
    decorator makes them, the tag has no effect in a query between types:
    with or without a declared parent the answer is full containment. *)
Lemma isConformant_default_methods candidate interface st sC st1 sI st2 c :
  ClassSignature.__init__ candidate st = Ok (sC, st1) →
  ClassSignature.__init__ interface st1 = Ok (sI, st2) →
  classes st !! candidate = Some c →
  (∀ a, a ∈ ClassSignature.default_attrs sI → callable a = true) →
  isConformant candidate interface st
  = Ok (ClassSignature.contains_loop (ClassSignature.signatures sC)
          (ClassSignature.signatures sI), st2).
Proof.
  intros HC HI Hc Hdef.
  rewrite (isConformant_unfold _ _ _ _ _ _ _ _ HC HI Hc).
  destruct (bool_decide _); [|done].
  rewrite (implements_loop_default_functions _ _ _ Hdef); [done|].
  unfold ClassSignature.__init__ in HI. inv_M. simpl.
  eauto using mapM_universal_signature_SigObject.
Qed.

(** ** The subclass hook of the metaclass *)

(** C3 (as the code has it).  The hook applies the structural rule only to an
    interface with exactly one declared parent; for any other number of
    parents it hands the question to the inherited hook and builds no
    signature.  The structural rule chooses its branch by the candidate's
    parents alone: the subset loop when the candidate lists the interface
    among them, full containment otherwise. *)
Theorem C3_structural_rule_only_for_single_parent
    (st : state) (cls subclass : nat) (c : class_obj) :
  classes st !! cls = Some c →
  (length (c_bases c) = 1 →
     Interface.__subclasscheck__ cls subclass st = isConformant subclass cls st)
  ∧ (length (c_bases c) ≠ 1 →
     Interface.__subclasscheck__ cls subclass st
     = Interface.super_subclasscheck cls subclass st)
  ∧ (∀ sC st1 sI st2 k,
       ClassSignature.__init__ subclass st = Ok (sC, st1) →
       ClassSignature.__init__ cls st1 = Ok (sI, st2) →
       classes st !! subclass = Some k →
       eval (isConformant subclass cls) st
       = Ok (if bool_decide (cls ∈ c_bases k)
             then ClassSignature.implements_loop (ClassSignature.signatures sC)
                    (ClassSignature.default_attrs sI) (ClassSignature.signatures sI)
             else ClassSignature.contains_loop (ClassSignature.signatures sC)
                    (ClassSignature.signatures sI))).
Proof.
  intros Hc.
  assert (lookup_class cls st = Ok (c, st)) as Hl
    by (unfold lookup_class; by rewrite Hc).
  repeat split.
  - intros Hlen. unfold Interface.__subclasscheck__.
    rewrite (bind_step _ _ _ _ _ Hl).
    by rewrite bool_decide_eq_false_2 by (by intros ?).
  - intros Hlen. unfold Interface.__subclasscheck__.
    rewrite (bind_step _ _ _ _ _ Hl).
    by rewrite bool_decide_eq_true_2.
  - intros sC st1 sI st2 k HC HI Hk. unfold eval.
    by rewrite (isConformant_unfold _ _ _ _ _ _ _ _ HC HI Hk).
Qed.

Lemma C3_witness :
  classes world !! cBoth = Some (class_at world cBoth)
  ∧ length (c_bases (class_at world cBoth)) = 2
  ∧ Interface.__subclasscheck__ cBoth cDuck world
    = Interface.super_subclasscheck cBoth cDuck world.
Proof.
  assert (classes world !! cBoth = Some (class_at world cBoth)) as H
    by (vm_compute; reflexivity).
  assert (length (c_bases (class_at world cBoth)) = 2) as Hlen
    by (vm_compute; reflexivity).
  refine (conj H (conj Hlen _)).
  apply (C3_structural_rule_only_for_single_parent world cBoth cDuck _ H).
  rewrite Hlen. lia.
Defined.

(** C3, counterexample.  [Both] has two declared parents; [Duck] holds a
    matching descriptor for every member of [Both].  Full containment is
    true, yet the subclass check does not answer true: it raises. *)
Lemma C3_two_parents_not_decided_by_containment :
  eval (let* l := Scenarios.Left in
        let* r := Scenarios.Right in
        let* I := Scenarios.Both l r in
        let* C := Scenarios.Duck in
        let* i := lookup_class I in
        let* sC := ClassSignature.__init__ C in
        let* full := ClassSignature.contains sC (inr I) in
        ret (length (c_bases i), full)) initial_state
  = Ok (2, true)
  ∧ eval (let* l := Scenarios.Left in
          let* r := Scenarios.Right in
          let* I := Scenarios.Both l r in
          let* C := Scenarios.Duck in
          Interface.__subclasscheck__ I C) initial_state
    = Raise (AttributeError "'super' object has no attribute '__subclasscheck__'").
Proof. split; vm_compute; reflexivity. Qed.

(** ** Property members *)

Lemma signature_deterministic obj st s st' :
  signature obj st = Ok (s, st') → ∀ st2, signature obj st2 = Ok (s, st2).
Proof. destruct obj; simpl; try done. by intros [= <- _] st2. Qed.

(** Two extractions from one property object give two signature objects with
    the same three parts that are not equal. *)
Lemma PropertySignature_identity target st a st1 b st2 :
  PropertySignature.__init__ target st = Ok (a, st1) →
  PropertySignature.__init__ target st1 = Ok (b, st2) →
  spec_accessor_eq a b = true ∧ sig_eq (SigProperty a) (SigProperty b) = false.
Proof.
  unfold PropertySignature.__init__. intros Ha Hb.
  destruct target as [| | | |i g s d|]; inv_M; try done.
  repeat match goal with
         | H : fresh _ = Ok _ |- _ => injection H as <- <-
         end.
  repeat match goal with
         | H : signature _ _ = Ok _ |- _ =>
             pose proof (reads_signature _ _ _ _ H) as ->;
             pose proof (signature_deterministic _ _ _ _ H) as ?; clear H
         end.
  repeat match goal with
         | H : ∀ st2, signature ?o st2 = Ok (?s, st2),
           H' : ∀ st2, signature ?o st2 = Ok (?s', st2) |- _ =>
             assert (s = s') as <-
               by (specialize (H initial_state); specialize (H' initial_state); congruence);
             clear H'
         end.
  unfold spec_accessor_eq. simpl.
  rewrite !bool_decide_eq_true_2 by done. split; [done|].
  apply bool_decide_eq_false_2. lia.
Qed.

(** C5 (the code at the failing input).  [Sized] and [Box] each define a
    property [size] whose getter, setter and deleter signatures agree part by
    part; the two signature objects are not equal, and [Box] does not conform
    to [Sized]. *)
Theorem C5_matching_properties_never_equal :
  eval (let* I := Scenarios.Sized in
        let* C := Scenarios.Box in
        let* sizeI := getattr I "size" in
        let* sizeC := getattr C "size" in
        let* dI := PropertySignature.__init__ sizeI in
        let* dC := PropertySignature.__init__ sizeC in
        let* r := isConformant C I in
        ret (spec_accessor_eq dC dI, sig_eq (SigProperty dC) (SigProperty dI), r))
       initial_state
  = Ok (true, false, false).
Proof. vm_compute. reflexivity. Qed.

(** C6 (the code at the failing inputs).  Extraction from a property whose
    setter is missing raises, and so does extraction from one that has a
    getter and a setter but no deleter: [inspect.signature] is applied to
    [None]. *)
Theorem C6_missing_accessor_part_raises
    (st : state) (id : nat) (getter setter : function) (fdel : pyobj) :
  eval (universal_signature (PyProperty id (PyFunction getter) PyNone fdel)) st
  = Raise (TypeError "None is not a callable object")
  ∧ eval (universal_signature
            (PyProperty id (PyFunction getter) (PyFunction setter) PyNone)) st
    = Raise (TypeError "None is not a callable object").
Proof. done. Qed.

(** ** Reflexivity *)

Lemma universal_signature_plain obj st :
  is_property obj = false →
  universal_signature obj st = Ok (plain_signature obj, st).
Proof. destruct obj; simpl; done. Qed.

Lemma mapM_universal_signature_plain attrs st :
  Forall (λ a, is_property a = false) attrs →
  mapM universal_signature attrs st = Ok (map plain_signature attrs, st).
Proof.
  induction 1 as [|a attrs Ha _ IH]; [done|]. simpl.
  rewrite (bind_step _ _ _ _ _ (universal_signature_plain a st Ha)).
  by rewrite (bind_step _ _ _ _ _ IH).
Qed.

Lemma contains_loop_refl S : ClassSignature.contains_loop S S = true.
Proof. apply contains_loop_spec. auto using py_in_elem. Qed.

Lemma implements_loop_refl S D : ClassSignature.implements_loop S D S = true.
Proof. apply implements_loop_spec. auto using py_in_elem. Qed.

(** A class none of whose members is a property conforms to itself. *)
Lemma isConformant_refl_without_property T st attrs :
  get_non_dunder_attrs T st = Ok (attrs, st) →
  Forall (λ a, is_property a = false) attrs →
  isConformant T T st = Ok (true, st).
Proof.
  intros Hattrs Hplain.
  assert (ClassSignature.__init__ T st
          = Ok (ClassSignature.mk T attrs (map plain_signature attrs)
                  (filter (λ i, has_defaultmethod i) attrs), st)) as Hinit.
  { unfold ClassSignature.__init__.
    rewrite (bind_step _ _ _ _ _ Hattrs).
    by rewrite (bind_step _ _ _ _ _ (mapM_universal_signature_plain attrs st Hplain)). }
  assert (∃ c, classes st !! T = Some c) as [c Hc].
  { unfold get_non_dunder_attrs, dir in Hattrs. inv_M.
    match goal with H : lookup_class _ _ = Ok _ |- _ => unfold lookup_class in H end.
    destruct (classes st !! T) as [c|]; [by exists c|done]. }
  rewrite (isConformant_unfold _ _ _ _ _ _ _ _ Hinit Hinit Hc). simpl.
  by rewrite contains_loop_refl, implements_loop_refl, Tauto.if_same.
Qed.

(** C8 (the code at the failing input).  [Box] is an ordinary class that can
    be constructed; it has a property member, and it does not conform to
    itself: the two signatures built for the query hold two distinct
    [PropertySignature] objects. *)
Theorem C8_class_with_property_not_reflexive :
  eval (let* T := Scenarios.Box in
        let* t := lookup_class T in
        let* _ := construct T in
        let* r := isConformant T T in
        ret (c_meta t, r)) initial_state
  = Ok (MetaType, false).
Proof. vm_compute. reflexivity. Qed.

(** ** Class creation through the metaclass and construction *)

Lemma mapM_lookup_class bases st parents st' :
  mapM lookup_class bases st = Ok (parents, st') →
  st' = st ∧ Forall2 (λ b p, classes st !! b = Some p) bases parents.
Proof.
  revert parents st'. induction bases as [|b bases IH]; simpl; intros parents st' H.
  - injection H as <- <-. split; [done|constructor].
  - inv_M.
    match goal with H : lookup_class _ _ = Ok _ |- _ =>
      unfold lookup_class in H; destruct (classes st !! b) as [p|] eqn:Eb; [|done];
      injection H as <- <- end.
    match goal with H : mapM _ _ _ = Ok _ |- _ => apply IH in H as [-> HF] end.
    split; [done|]. by constructor.
Qed.

Lemma type_new_Ok meta name bases dct st cls st' :
  type_new meta name bases dct st = Ok (cls, st') →
  cls = length (classes st)
  ∧ ∃ mro, st' = mkState (classes st
                          ++ [mkClass name meta (match bases with [] => [0] | _ => bases end)
                                (cls :: mro) dct])%list (next_id st).
Proof.
  unfold type_new. intros H. inv_M.
  match goal with H : mapM _ _ _ = Ok _ |- _ => apply mapM_lookup_class in H as [-> _] end.
  destruct (compute_mro _ _ _) as [mro|] eqn:E; [|done].
  injection H as <- <-. split; [done|].
  unfold compute_mro in E. destruct (c3_merge _ _) as [l|]; [|done].
  injection E as <-. by exists l.
Qed.

Lemma Interface_new_Ok name bases dct st cls st' :
  Interface.__new__ name bases dct st = Ok (cls, st') →
  ∃ c mro,
    classes st' !! cls = Some c
    ∧ c_meta c = MetaInterface
    ∧ c_mro c = cls :: mro
    ∧ c_dict c !! "__init__"
      = Some (match dct !! "__init__" with
              | Some init => init
              | None => PyFunction (Interface.default_initializer (next_id st))
              end).
Proof.
  unfold Interface.__new__, fresh. intros H. inv_M.
  match goal with H : Ok _ = Ok _ |- _ => injection H as <- <- end.
  apply type_new_Ok in H as [-> (mro & ->)]. simpl.
  eexists _, mro. split; [apply list_lookup_middle; done|]. simpl.
  repeat split.
  destruct (dct !! "__init__") as [init|] eqn:E.
  - rewrite bool_decide_eq_false_2; [done|].
    intros Hn. apply Hn, elem_of_dom. by exists init.
  - rewrite bool_decide_eq_true_2 by (by apply not_elem_of_dom).
    apply lookup_insert_eq.
Qed.

Lemma getattr_own st cls c mro name v :
  classes st !! cls = Some c →
  c_mro c = cls :: mro →
  c_dict c !! name = Some v →
  getattr cls name st = Ok (v, st).
Proof.
  intros Hc Hmro Hv. unfold getattr.
  assert (lookup_class cls st = Ok (c, st)) as Hl
    by (unfold lookup_class; by rewrite Hc).
  rewrite (bind_step _ _ _ _ _ Hl).
  unfold bind, get_state. rewrite Hmro. simpl. by rewrite Hc, Hv.
Qed.

Lemma construct_object_new st cls c :
  classes st !! cls = Some c →
  mro_lookup (classes st) (c_mro c) "__new__" = None →
  construct cls st
  = (let* id := fresh in
     let* init := getattr cls "__init__" in
     let* _ := call init in
     ret (PyInstance id false)) st.
Proof.
  intros Hc Hnew. unfold construct.
  assert (lookup_class cls st = Ok (c, st)) as Hl
    by (unfold lookup_class; by rewrite Hc).
  rewrite (bind_step _ _ _ _ _ Hl).
  assert (get_state st = Ok (st, st)) as Hg by done.
  rewrite (bind_step _ _ _ _ _ Hg). by rewrite Hnew.
Qed.

(** Construction runs the initializer of the class's own dictionary when
    there is one and no class along the method resolution order defines
    [__new__]. *)
Lemma construct_own_init st cls c mro init :
  classes st !! cls = Some c →
  c_mro c = cls :: mro →
  mro_lookup (classes st) (c_mro c) "__new__" = None →
  c_dict c !! "__init__" = Some init →
  eval (construct cls) st
  = eval (let* id := fresh in let* _ := call init in ret (PyInstance id false)) st.
Proof.
  intros Hc Hmro Hnew Hinit. unfold eval.
  rewrite (construct_object_new _ _ _ Hc Hnew).
  assert (fresh st = Ok (next_id st, mkState (classes st) (S (next_id st)))) as Hf by done.
  rewrite !(bind_step _ _ _ _ _ Hf).
  by rewrite !(bind_step _ _ _ _ _
                 (getattr_own (mkState (classes st) (S (next_id st)))
                    cls c mro "__init__" init Hc Hmro Hinit)).
Qed.

(** C4 (as the code has it).  Take a class made by [Interface.__new__] such
    that no class along its method resolution order defines [__new__].  When
    its body has no [__init__], it cannot be constructed: the attempt raises
    the [TypeError] of the default initializer.  When its body defines
    [__init__], the class keeps it, and construction runs that
    initializer. *)
Theorem C4_construction_denied_without_own_initializer
    (st st' : state) (name : string) (bases : list nat) (dct : gmap string pyobj)
    (cls : nat) (c : class_obj) :
  Interface.__new__ name bases dct st = Ok (cls, st') →
  classes st' !! cls = Some c →
  mro_lookup (classes st') (c_mro c) "__new__" = None →
  match dct !! "__init__" with
  | None =>
      eval (construct cls) st' = Raise (TypeError "Attempted to initialize Interface")
  | Some init =>
      eval (construct cls) st'
      = eval (let* id := fresh in let* _ := call init in ret (PyInstance id false)) st'
  end.
Proof.
  intros (c' & mro & Hc' & _ & Hmro & Hinit)%Interface_new_Ok Hc Hnew.
  assert (c' = c) as -> by congruence.
  rewrite (construct_own_init _ _ _ _ _ Hc Hmro Hnew Hinit).
  by destruct (dct !! "__init__").
Qed.

Lemma C4_witness :
  Interface.__new__ "TestInterface" [] (class_body "TestInterface" []) initial_state
  = Ok (1, exec (Interface.__new__ "TestInterface" [] (class_body "TestInterface" []))
             initial_state)
  ∧ classes (exec (Interface.__new__ "TestInterface" [] (class_body "TestInterface" []))
                  initial_state) !! 1
    = Some (class_at (exec (Interface.__new__ "TestInterface" []
                              (class_body "TestInterface" [])) initial_state) 1)
  ∧ mro_lookup
      (classes (exec (Interface.__new__ "TestInterface" [] (class_body "TestInterface" []))
                     initial_state))
      (c_mro (class_at (exec (Interface.__new__ "TestInterface" []
                                (class_body "TestInterface" [])) initial_state) 1))
      "__new__" = None
  ∧ eval (construct 1)
         (exec (Interface.__new__ "TestInterface" [] (class_body "TestInterface" []))
               initial_state)
    = Raise (TypeError "Attempted to initialize Interface").
Proof.
  assert (Interface.__new__ "TestInterface" [] (class_body "TestInterface" []) initial_state
          = Ok (1, exec (Interface.__new__ "TestInterface" [] (class_body "TestInterface" []))
                     initial_state)) as H1 by (vm_compute; reflexivity).
  assert (classes (exec (Interface.__new__ "TestInterface" []
                           (class_body "TestInterface" [])) initial_state) !! 1
          = Some (class_at (exec (Interface.__new__ "TestInterface" []
                                    (class_body "TestInterface" [])) initial_state) 1)) as H2
    by (vm_compute; reflexivity).
  assert (mro_lookup
            (classes (exec (Interface.__new__ "TestInterface" []
                              (class_body "TestInterface" [])) initial_state))
            (c_mro (class_at (exec (Interface.__new__ "TestInterface" []
                                      (class_body "TestInterface" [])) initial_state) 1))
            "__new__" = None) as H3
    by (vm_compute; reflexivity).
  exact (conj H1 (conj H2 (conj H3
    (C4_construction_denied_without_own_initializer _ _ _ _ _ _ _ H1 H2 H3)))).
Defined.

(** C4, counterexample.  [WithInit] is made by the [Interface] metaclass and
    defines [__init__] in its body; constructing it succeeds.  [WithNew] is
    made by the metaclass from a body without [__init__] and receives the
    raising initializer, but its [__new__] returns nothing: construction
    gives [None] and raises nothing. *)
Lemma C4_interface_with_own_initializer_is_constructed :
  eval (let* I := Scenarios.WithInit in
        let* i := lookup_class I in
        let* o := construct I in
        ret (c_meta i, o)) initial_state
  = Ok (MetaInterface, PyInstance 4 false)
  ∧ eval (let* I := Scenarios.WithNew in
          let* i := lookup_class I in
          let* o := construct I in
          ret (c_meta i, c_dict i !! "__init__", o)) initial_state
    = Ok (MetaInterface, Some (PyFunction (Interface.default_initializer 3)), PyNone).
Proof. split; vm_compute; reflexivity. Qed.

(** C10 (as the code has it).  A class statement that goes through the
    [Interface] metaclass, because the metaclass is named or because a base
    was made by it, and whose body has no [__init__], yields a class with
    the raising default initializer in its own dictionary; when no class
    along its method resolution order defines [__new__], constructing it
    raises. *)
Theorem C10_subclass_receives_raising_initializer
    (st st' : state) (meta : option metaclass) (name : string) (bases : list nat)
    (dct : gmap string pyobj) (cls : nat) :
  (meta = Some MetaInterface
   ∨ ∃ base p, base ∈ bases ∧ classes st !! base = Some p ∧ c_meta p = MetaInterface) →
  dct !! "__init__" = None →
  class_statement meta name bases dct st = Ok (cls, st') →
  ∃ c id, classes st' !! cls = Some c
          ∧ c_meta c = MetaInterface
          ∧ c_dict c !! "__init__" = Some (PyFunction (Interface.default_initializer id))
          ∧ (mro_lookup (classes st') (c_mro c) "__new__" = None →
             eval (construct cls) st'
             = Raise (TypeError "Attempted to initialize Interface")).
Proof.
  intros Hmeta Hdct H. unfold class_statement in H. inv_M.
  match goal with H : mapM _ _ _ = Ok _ |- _ => apply mapM_lookup_class in H as [-> HF] end.
  match type of H with (if ?b then _ else _) _ = _ => assert (b = true) as Hb end.
  { destruct Hmeta as [->|(base & p & Hbase & Hp & Hm)]; [done|].
    apply orb_true_iff. right. apply existsb_exists.
    apply list_elem_of_lookup in Hbase as [i Hi].
    destruct (Forall2_lookup_l _ _ _ _ _ HF Hi) as (p' & Hp' & Hbp).
    exists p'. split.
    - apply list_elem_of_In, list_elem_of_lookup. by exists i.
    - apply bool_decide_eq_true. congruence. }
  rewrite Hb in H.
  apply Interface_new_Ok in H as (c & mro & Hc & Hm & Hmro & Hinit).
  rewrite Hdct in Hinit. exists c, (next_id st).
  split; [done|]. split; [done|]. split; [done|].
  intros Hnew. by rewrite (construct_own_init _ _ _ _ _ Hc Hmro Hnew Hinit).
Qed.

Lemma C10_witness :
  (None = Some MetaInterface
   ∨ ∃ base p, base ∈ [cTestInterface] ∧ classes world !! base = Some p
               ∧ c_meta p = MetaInterface)
  ∧ class_body "Concrete" [] !! "__init__" = None
  ∧ class_statement None "Concrete" [cTestInterface] (class_body "Concrete" []) world
    = Ok (19, exec (class_statement None "Concrete" [cTestInterface]
                      (class_body "Concrete" [])) world)
  ∧ ∃ c id,
      classes (exec (class_statement None "Concrete" [cTestInterface]
                       (class_body "Concrete" [])) world) !! 19 = Some c
      ∧ c_meta c = MetaInterface
      ∧ c_dict c !! "__init__" = Some (PyFunction (Interface.default_initializer id))
      ∧ (mro_lookup
           (classes (exec (class_statement None "Concrete" [cTestInterface]
                             (class_body "Concrete" [])) world))
           (c_mro c) "__new__" = None →
         eval (construct 19)
              (exec (class_statement None "Concrete" [cTestInterface]
                       (class_body "Concrete" [])) world)
         = Raise (TypeError "Attempted to initialize Interface")).
Proof.
  assert (None = Some MetaInterface
          ∨ ∃ base p, base ∈ [cTestInterface] ∧ classes world !! base = Some p
                      ∧ c_meta p = MetaInterface) as H1.
  { right. exists cTestInterface, (class_at world cTestInterface).
    split; [apply list_elem_of_here|]. split; vm_compute; reflexivity. }
  assert (class_body "Concrete" [] !! "__init__" = None) as H2
    by (vm_compute; reflexivity).
  assert (class_statement None "Concrete" [cTestInterface] (class_body "Concrete" []) world
          = Ok (19, exec (class_statement None "Concrete" [cTestInterface]
                            (class_body "Concrete" [])) world)) as H3
    by (vm_compute; reflexivity).
  exact (conj H1 (conj H2 (conj H3
    (C10_subclass_receives_raising_initializer _ _ _ _ _ _ _ H1 H2 H3)))).
Defined.

(** C10, counterexample.  [Quiet] declares [TestInterface], defines [foo]
    and [bar] with the interface's signatures and no [__init__], and a
    [__new__] that returns nothing.  It goes through the metaclass, receives
    the raising initializer in its own dictionary and conforms to the
    interface; constructing it gives [None] and raises nothing. *)
Lemma C10_subclass_with_new_is_not_denied :
  eval (let* i := Tests.TestInterface in
        let* q := Scenarios.Quiet i in
        let* c := lookup_class q in
        let* r := Interface.__subclasscheck__ i q in
        let* o := construct q in
        ret (c_meta c, c_dict c !! "__init__", r, o)) initial_state
  = Ok (MetaInterface, Some (PyFunction (Interface.default_initializer 8)), true, PyNone).
Proof. vm_compute. reflexivity. Qed.

(** [TestA] of the tests conforms to [TestInterface] and cannot be
    constructed. *)
Example TestA_conforms_and_cannot_be_constructed :
  eval (let* i := Tests.TestInterface in
        let* a := Tests.TestA i in
        Interface.__subclasscheck__ i a) initial_state
  = Ok true
  ∧ eval (let* i := Tests.TestInterface in
          let* a := Tests.TestA i in
          construct a) initial_state
    = Raise (TypeError "Attempted to initialize Interface").
Proof. split; vm_compute; reflexivity. Qed.

(** * Further properties of the module *)

(** ** [is_dunder] *)

Lemma prefix_spec p s : String.prefix p s = true ↔ ∃ t, s = p ++ t.
Proof.
  revert s. induction p as [|a p IH]; intros s.
  - split; [|by destruct s]. intros _. by exists s.
  - destruct s as [|b s]; simpl.
    + split; [done|]. by intros (t & [=]).
    + destruct (ascii_dec a b) as [->|Hne].
      * rewrite IH. split; intros (t & Ht); exists t.
        -- by rewrite Ht.
        -- by injection Ht.
      * split; [done|]. intros (t & [= -> _]). done.
Qed.

Lemma substring_all s : String.substring 0 (String.length s) s = s.
Proof. induction s as [|a s IH]; simpl; [done|]. by rewrite IH. Qed.

Lemma substring_skip t s n :
  String.substring (String.length t) n (t ++ s) = String.substring 0 n s.
Proof. induction t as [|a t IH]; simpl; [done|]. apply IH. Qed.

Lemma substring_split s k :
  (k ≤ String.length s)%nat →
  s = String.substring 0 k s ++ String.substring k (String.length s - k) s.
Proof.
  revert k. induction s as [|a s IH]; intros k Hk; simpl in *.
  - by destruct k.
  - destruct k as [|k]; simpl.
    + by rewrite substring_all.
    + exact (f_equal (String a) (IH k ltac:(lia))).
Qed.

Lemma string_length_app s t :
  String.length (s ++ t) = (String.length s + String.length t)%nat.
Proof. induction s as [|a s IH]; [done|]. simpl. by rewrite <- IH. Qed.

Lemma endswith_spec s suffix : endswith s suffix = true ↔ ∃ t, s = t ++ suffix.
Proof.
  unfold endswith. rewrite andb_true_iff, bool_decide_eq_true, String.eqb_eq. split.
  - intros [Hlen Heq].
    exists (String.substring 0 (String.length s - String.length suffix) s).
    pose proof (substring_split s (String.length s - String.length suffix)
                  ltac:(lia)) as H.
    replace (String.length s - (String.length s - String.length suffix))%nat
      with (String.length suffix) in H by lia.
    by rewrite Heq in H.
  - intros (t & ->). rewrite string_length_app. split; [lia|].
    replace (String.length t + String.length suffix - String.length suffix)%nat
      with (String.length t) by lia.
    by rewrite substring_skip, substring_all.
Qed.

(** X1.  A name is filtered as special exactly when it begins with two
    underscores and ends with two underscores; the two pairs may overlap, so
    ["__"] and ["___"] are special, while a name that only begins with them
    (or has single underscores) is kept as an ordinary member. *)
Theorem is_dunder_iff (methodname : string) :
  (is_dunder methodname = true ↔
   (∃ t, methodname = "__" ++ t) ∧ (∃ t, methodname = t ++ "__"))
  ∧ is_dunder "__" = true ∧ is_dunder "___" = true.
Proof.
  split; [|done].
  unfold is_dunder, startswith.
  by rewrite andb_true_iff, prefix_spec, endswith_spec.
Qed.

(** ** [get_defining_class] *)

Lemma split_on_nonempty sep s : split_on sep s ≠ [].
Proof.
  induction s as [|a s IH]; simpl; [done|].
  destruct (Ascii.eqb a sep); [done|]. by destruct (split_on sep s).
Qed.

Lemma split_on_no_sep sep s : has_char sep s = false → split_on sep s = [s].
Proof.
  induction s as [|a s IH]; simpl; [done|].
  intros [Ha Hs]%orb_false_iff. by rewrite Ha, (IH Hs).
Qed.

Lemma split_on_app sep p n :
  split_on sep (p ++ String sep n) = (split_on sep p ++ split_on sep n)%list.
Proof.
  induction p as [|a p IH].
  - change (split_on sep (String sep n) = "" :: split_on sep n).
    simpl. by rewrite Ascii.eqb_refl.
  - change (split_on sep (String a (p ++ String sep n))
            = (split_on sep (String a p) ++ split_on sep n)%list).
    simpl. rewrite IH. destruct (Ascii.eqb a sep); [done|].
    pose proof (split_on_nonempty sep p). by destruct (split_on sep p).
Qed.

(** Joining the pieces of a split gives the string back. *)
Lemma join_split_on sep s : join (String sep "") (split_on sep s) = s.
Proof.
  induction s as [|a s IH]; simpl; [done|].
  pose proof (split_on_nonempty sep s) as Hne.
  destruct (Ascii.eqb_spec a sep) as [->|Hneq].
  - destruct (split_on sep s) as [|w ws]; [done|].
    change (join (String sep "") ("" :: w :: ws))
      with (String sep (join (String sep "") (w :: ws))).
    by rewrite IH.
  - destruct (split_on sep s) as [|w ws]; [done|].
    destruct ws as [|w' ws]; simpl in *; by rewrite <- IH.
Qed.

Lemma defining_class_of_qualname prefix last :
  has_char "." last = false →
  join "." (removelast (split_on "." (prefix ++ String "." last))) = prefix.
Proof.
  intros Hlast. rewrite split_on_app, (split_on_no_sep _ _ Hlast).
  rewrite removelast_last. apply join_split_on.
Qed.

(** X2.  For a method found on the class, [get_defining_class] returns the
    qualified name of the function without its last dotted component, and
    the empty string when the qualified name has no dot; for an attribute
    that is not a function it raises [AttributeError]. *)
Theorem get_defining_class_strips_last_component
    (co_qualname : function → string) (st : state) (cls : nat)
    (methodname : string) (m : pyobj) :
  getattr cls methodname st = Ok (m, st) →
  match m with
  | PyFunction f =>
      (∀ prefix last,
         co_qualname f = prefix ++ String "." last →
         has_char "." last = false →
         get_defining_class co_qualname cls methodname st = Ok (prefix, st))
      ∧ (has_char "." (co_qualname f) = false →
         get_defining_class co_qualname cls methodname st = Ok ("", st))
  | _ => get_defining_class co_qualname cls methodname st
         = Raise (AttributeError "__code__")
  end.
Proof.
  intros Hm. unfold get_defining_class. rewrite (bind_step _ _ _ _ _ Hm).
  destruct m; try done. split.
  - intros prefix last -> Hlast. unfold ret.
    by rewrite (defining_class_of_qualname _ _ Hlast).
  - intros Hq. unfold ret. by rewrite (split_on_no_sep _ _ Hq).
Qed.

Lemma get_defining_class_witness :
  getattr cTestA "foo" world
  = Ok (PyFunction (mkFunction 5 (takes_int "TestInterface") false Pass), world)
  ∧ get_defining_class (λ _, "TestA.foo") cTestA "foo" world = Ok ("TestA", world).
Proof.
  assert (getattr cTestA "foo" world
          = Ok (PyFunction (mkFunction 5 (takes_int "TestInterface") false Pass), world))
    as H by (vm_compute; reflexivity).
  refine (conj H _).
  exact (proj1 (get_defining_class_strips_last_component (λ _, "TestA.foo")
                  _ _ _ _ H) "TestA" "foo" eq_refl eq_refl).
Defined.

Lemma get_defining_class_missing co_qualname st cls methodname e :
  getattr cls methodname st = Raise e →
  get_defining_class co_qualname cls methodname st = Raise e.
Proof. intros H. unfold get_defining_class. by apply bind_Raise. Qed.

(** ** [get_non_dunder_attrs] *)

Lemma mro_lookup_names tbl mro name :
  name ∈ mro_names tbl mro → is_Some (mro_lookup tbl mro name).
Proof.
  unfold mro_names. induction mro as [|k mro IH]; simpl.
  - intros H. by apply elem_of_empty in H.
  - intros [H|H]%elem_of_union.
    + destruct (tbl !! k) as [c|]; [|by apply elem_of_empty in H].
      apply elem_of_dom in H as [v Hv]. by rewrite Hv.
    + destruct (tbl !! k) as [c|]; [destruct (c_dict c !! name)|]; eauto.
Qed.

Lemma mapM_reads_total {A B} (f : A → M B) (l : list A) st :
  (∀ a, a ∈ l → ∃ b, f a st = Ok (b, st)) →
  ∃ bs, mapM f l st = Ok (bs, st) ∧ Forall2 (λ a b, f a st = Ok (b, st)) l bs.
Proof.
  induction l as [|a l IH]; intros Hf; simpl.
  - exists []. by split.
  - destruct (Hf a) as [b Hb]; [left|].
    destruct IH as (bs & Hbs & HF); [intros; apply Hf; by right|].
    exists (b :: bs). split; [|by constructor].
    by rewrite (bind_step _ _ _ _ _ Hb), (bind_step _ _ _ _ _ Hbs).
Qed.

Lemma dir_Ok st cls c :
  classes st !! cls = Some c →
  dir cls st = Ok (merge_sort string_le (elements (mro_names (classes st) (c_mro c))), st).
Proof. intros H. unfold dir, bind, lookup_class, get_state, ret. by rewrite H. Qed.

Lemma getattr_Ok st cls c name v :
  classes st !! cls = Some c →
  mro_lookup (classes st) (c_mro c) name = Some v →
  getattr cls name st = Ok (v, st).
Proof.
  intros H Hv. unfold getattr, bind, lookup_class, get_state, ret. by rewrite H, Hv.
Qed.

(** The names [get_non_dunder_attrs] goes through, in its order. *)
Lemma get_non_dunder_attrs_Ok st cls c :
  classes st !! cls = Some c →
  ∃ attrs,
    get_non_dunder_attrs cls st = Ok (attrs, st)
    ∧ member_names cls st
      = Ok (filter (λ i, ¬ is_dunder i)
              (merge_sort string_le (elements (mro_names (classes st) (c_mro c)))), st)
    ∧ Forall2 (λ n a, mro_lookup (classes st) (c_mro c) n = Some a)
        (filter (λ i, ¬ is_dunder i)
           (merge_sort string_le (elements (mro_names (classes st) (c_mro c)))))
        attrs.
Proof.
  intros Hc.
  set (names := filter (λ i, ¬ is_dunder i)
                  (merge_sort string_le (elements (mro_names (classes st) (c_mro c))))).
  destruct (mapM_reads_total (getattr cls) names st) as (attrs & Hattrs & HF).
  { intros n Hn. unfold names in Hn.
    apply list_elem_of_filter in Hn as [_ Hn].
    rewrite merge_sort_Permutation, elem_of_elements in Hn.
    apply mro_lookup_names in Hn as [v Hv].
    exists v. by apply (getattr_Ok _ _ c). }
  exists attrs. split; [|split].
  - unfold get_non_dunder_attrs. by rewrite (bind_step _ _ _ _ _ (dir_Ok _ _ _ Hc)).
  - unfold member_names. by rewrite (bind_step _ _ _ _ _ (dir_Ok _ _ _ Hc)).
  - eapply Forall2_impl; [exact HF|]. intros n a Hget. simpl in Hget.
    unfold getattr, bind, lookup_class, get_state, ret in Hget. rewrite Hc in Hget.
    destruct (mro_lookup (classes st) (c_mro c) n); by inversion Hget.
Qed.

Lemma ordinary_name_iff tbl mro n :
  n ∈ filter (λ i, ¬ is_dunder i) (merge_sort string_le (elements (mro_names tbl mro)))
  ↔ is_dunder n = false ∧ n ∈ mro_names tbl mro.
Proof.
  rewrite list_elem_of_filter, merge_sort_Permutation, elem_of_elements.
  destruct (is_dunder n); simpl; intuition congruence.
Qed.

(** X3.  On a class of the table [get_non_dunder_attrs] never raises and
    leaves the state as it is.  It returns one attribute per name of the
    class or of an ancestor that is not special, each name once, and the
    attribute is the one the method resolution order finds under that
    name. *)
Theorem get_non_dunder_attrs_total (st : state) (cls : nat) (c : class_obj) :
  classes st !! cls = Some c →
  ∃ names attrs,
    member_names cls st = Ok (names, st)
    ∧ get_non_dunder_attrs cls st = Ok (attrs, st)
    ∧ Forall2 (λ n a, mro_lookup (classes st) (c_mro c) n = Some a) names attrs
    ∧ NoDup names
    ∧ (∀ n, n ∈ names ↔
            is_dunder n = false ∧ n ∈ mro_names (classes st) (c_mro c)).
Proof.
  intros Hc. destruct (get_non_dunder_attrs_Ok _ _ _ Hc) as (attrs & Ha & Hn & HF).
  eexists _, attrs. split; [exact Hn|]. split; [exact Ha|]. split; [exact HF|].
  split; [|apply ordinary_name_iff].
  apply NoDup_filter. rewrite merge_sort_Permutation. apply NoDup_elements.
Qed.

Lemma get_non_dunder_attrs_witness :
  classes world !! cTestA = Some (class_at world cTestA)
  ∧ ∃ names attrs,
      member_names cTestA world = Ok (names, world)
      ∧ get_non_dunder_attrs cTestA world = Ok (attrs, world)
      ∧ Forall2 (λ n a, mro_lookup (classes world)
                          (c_mro (class_at world cTestA)) n = Some a) names attrs
      ∧ NoDup names
      ∧ (∀ n, n ∈ names ↔
              is_dunder n = false
              ∧ n ∈ mro_names (classes world) (c_mro (class_at world cTestA))).
Proof.
  assert (classes world !! cTestA = Some (class_at world cTestA)) as H
    by (vm_compute; reflexivity).
  exact (conj H (get_non_dunder_attrs_total _ _ _ H)).
Defined.

(** ** [universal_signature] and [ClassSignature.__init__] *)

Lemma universal_signature_cases (obj : pyobj) (st : state) :
  if extractable obj
  then ∃ sg st',
         universal_signature obj st = Ok (sg, st')
         ∧ descriptor_of obj sg
         ∧ classes st' = classes st
         ∧ (if is_property obj
            then property_ids [sg] = [next_id st] ∧ next_id st' = S (next_id st)
            else property_ids [sg] = [] ∧ st' = st)
  else ∃ msg, universal_signature obj st = Raise (TypeError msg).
Proof.
  destruct obj as [| | |f|i g s d|]; simpl; try (by eexists _, _).
  destruct g as [| | |g| |]; simpl; try (by eexists).
  destruct s as [| | |s| |]; simpl; try (by eexists).
  destruct d as [| | |d| |]; simpl; try (by eexists).
  eexists _, _. split; [reflexivity|]. simpl. split; [|done].
  eexists. by repeat split.
Qed.

Lemma property_ids_cons sg sigs :
  property_ids (sg :: sigs) = (property_ids [sg] ++ property_ids sigs)%list.
Proof. by destruct sg. Qed.

Lemma mapM_universal_signature_spec attrs st sigs st' :
  mapM universal_signature attrs st = Ok (sigs, st') →
  Forall2 descriptor_of attrs sigs
  ∧ classes st' = classes st
  ∧ Forall (λ a, extractable a = true) attrs
  ∧ property_ids sigs = seq (next_id st) (next_id st' - next_id st)%nat
  ∧ (next_id st ≤ next_id st')%nat.
Proof.
  revert st sigs st'. induction attrs as [|a attrs IH]; simpl; intros st sigs st' H.
  - injection H as <- <-. rewrite Nat.sub_diag. by repeat split.
  - apply bind_Ok in H as (sg & st1 & Ha & H).
    apply bind_Ok in H as (rest & st2 & Hrest & H). injection H as <- <-.
    apply IH in Hrest as (HF & Hcl & Hex & Hids & Hle).
    pose proof (universal_signature_cases a st) as Hspec.
    destruct (extractable a) eqn:Ea; [|destruct Hspec as [msg Hm]; congruence].
    destruct Hspec as (sg' & st1' & Hsg & Hdesc & Hcl1 & Hprop).
    rewrite Ha in Hsg. injection Hsg as <- <-.
    split; [by constructor|]. split; [congruence|]. split; [by constructor|].
    rewrite property_ids_cons, Hids. destruct (is_property a).
    + destruct Hprop as [-> Hn]. rewrite Hn in *. split; [|lia].
      replace (next_id st2 - next_id st)%nat
        with (S (next_id st2 - S (next_id st)))%nat by lia.
      done.
    + destruct Hprop as [-> ->]. by split.
Qed.


Lemma ClassSignature_init_spec st st' cls sg :
  ClassSignature.__init__ cls st = Ok (sg, st') →
  classes st' = classes st
  ∧ get_non_dunder_attrs cls st = Ok (ClassSignature.attrs sg, st)
  ∧ Forall2 descriptor_of (ClassSignature.attrs sg) (ClassSignature.signatures sg)
  ∧ ClassSignature.default_attrs sg
    = filter (λ i, has_defaultmethod i) (ClassSignature.attrs sg)
  ∧ property_ids (ClassSignature.signatures sg)
    = seq (next_id st) (next_id st' - next_id st)%nat
  ∧ (next_id st ≤ next_id st')%nat.
Proof.
  unfold ClassSignature.__init__. intros H.
  apply bind_Ok in H as (attrs & st1 & Hattrs & H).
  apply bind_Ok in H as (sigs & st2 & Hsigs & H). injection H as <- <-.
  pose proof (reads_get_non_dunder_attrs _ _ _ _ Hattrs) as ->.
  apply mapM_universal_signature_spec in Hsigs as (HF & Hcl & _ & Hids & Hle).
  simpl. by repeat split.
Qed.

(** X5.  A signature that [ClassSignature] has built records its class, holds
    the attributes [get_non_dunder_attrs] returns and one value per
    attribute, in the same order and made from it; its default attributes
    are the attributes that carry [__defaultmethod__]; the class table is
    unchanged, and the [PropertySignature] objects in it are new and
    pairwise distinct. *)
Theorem ClassSignature_init_invariants
    (st st' : state) (cls : nat) (sg : ClassSignature.t) :
  ClassSignature.__init__ cls st = Ok (sg, st') →
  ClassSignature.cls sg = cls
  ∧ classes st' = classes st
  ∧ get_non_dunder_attrs cls st = Ok (ClassSignature.attrs sg, st)
  ∧ length (ClassSignature.signatures sg) = length (ClassSignature.attrs sg)
  ∧ Forall2 descriptor_of (ClassSignature.attrs sg) (ClassSignature.signatures sg)
  ∧ ClassSignature.default_attrs sg
    = filter (λ i, has_defaultmethod i) (ClassSignature.attrs sg)
  ∧ property_ids (ClassSignature.signatures sg)
    = seq (next_id st) (next_id st' - next_id st)%nat
  ∧ NoDup (property_ids (ClassSignature.signatures sg)).
Proof.
  intros H.
  pose proof (ClassSignature_init_spec _ _ _ _ H) as (Hcl & Hattrs & HF & Hdef & Hids & _).
  split; [by apply (ClassSignature_init_cls _ _ _ _ H)|].
  split; [done|]. split; [done|].
  split; [symmetry; by apply (Forall2_length _ _ _ HF)|].
  split; [done|]. split; [done|]. split; [done|].
  rewrite Hids. apply NoDup_seq.
Qed.

Lemma ClassSignature_init_invariants_witness :
  ClassSignature.__init__ 13 world
  = Ok (signature_in world 13, exec (ClassSignature.__init__ 13) world)
  ∧ property_ids (ClassSignature.signatures (signature_in world 13))
    = seq (next_id world)
        (next_id (exec (ClassSignature.__init__ 13) world) - next_id world)%nat.
Proof.
  assert (ClassSignature.__init__ 13 world
          = Ok (signature_in world 13, exec (ClassSignature.__init__ 13) world)) as H
    by (vm_compute; reflexivity).
  refine (conj H _).
  apply (ClassSignature_init_invariants _ _ _ _ H).
Defined.

(** ** Interfaces with a property member *)

Lemma lookup_class_table st st1 cls c :
  classes st1 = classes st →
  lookup_class cls st = Ok (c, st) → lookup_class cls st1 = Ok (c, st1).
Proof.
  unfold lookup_class. intros ->. destruct (classes st !! cls); by intros [= <-].
Qed.

Lemma get_non_dunder_attrs_table st st1 cls attrs :
  classes st1 = classes st →
  get_non_dunder_attrs cls st = Ok (attrs, st) →
  get_non_dunder_attrs cls st1 = Ok (attrs, st1).
Proof.
  intros Hcl H.
  assert (∃ c, classes st !! cls = Some c) as [c Hc].
  { unfold get_non_dunder_attrs, dir in H. inv_M.
    match goal with H : lookup_class _ _ = Ok _ |- _ => unfold lookup_class in H end.
    destruct (classes st !! cls) as [c|]; [by exists c|done]. }
  assert (classes st1 !! cls = Some c) as Hc1 by (by rewrite Hcl).
  unfold get_non_dunder_attrs in *.
  rewrite (bind_step _ _ _ _ _ (dir_Ok _ _ _ Hc)) in H.
  rewrite (bind_step _ _ _ _ _ (dir_Ok _ _ _ Hc1)). rewrite Hcl.
  revert attrs H.
  induction (filter (λ i, ¬ is_dunder i)
               (merge_sort string_le (elements (mro_names (classes st) (c_mro c)))))
    as [|n names IH]; simpl; intros attrs H.
  - by injection H as <-.
  - apply bind_Ok in H as (v & st2 & Hv & H).
    pose proof (reads_getattr _ _ _ _ _ Hv) as ->.
    apply bind_Ok in H as (vs & st3 & Hvs & H).
    pose proof (reads_mapM _ _ (reads_getattr cls) _ _ _ Hvs) as ->.
    injection H as <-.
    assert (getattr cls n st1 = Ok (v, st1)) as Hv1.
    { unfold getattr, bind, lookup_class, get_state, ret in *.
      rewrite Hc in Hv. rewrite Hc1, Hcl.
      destruct (mro_lookup (classes st) (c_mro c) n); by inversion Hv. }
    by rewrite (bind_step _ _ _ _ _ Hv1), (bind_step _ _ _ _ _ (IH _ Hvs)).
Qed.

Lemma ClassSignature_init_class st cls sg st' :
  ClassSignature.__init__ cls st = Ok (sg, st') → ∃ c, classes st !! cls = Some c.
Proof.
  unfold ClassSignature.__init__, get_non_dunder_attrs, dir. intros H. inv_M.
  match goal with H : lookup_class _ _ = Ok _ |- _ => unfold lookup_class in H end.
  destruct (classes st !! cls) as [c|]; [by exists c|done].
Qed.

Lemma property_ids_elem p sigs :
  SigProperty p ∈ sigs → PropertySignature.id p ∈ property_ids sigs.
Proof. intros H. apply list_elem_of_omap. by exists (SigProperty p). Qed.

Lemma py_in_new_property p sigs lo n :
  property_ids sigs = seq lo n →
  (lo + n ≤ PropertySignature.id p)%nat →
  py_in (SigProperty p) sigs = false.
Proof.
  intros Hids Hp. apply not_true_is_false. intros (e & He & Heq)%py_in_spec.
  destruct e as [|q|]; simpl in Heq; try done.
  apply bool_decide_eq_true in Heq.
  apply property_ids_elem in He. rewrite Hids in He.
  apply elem_of_seq in He. lia.
Qed.

Lemma py_in_property_defaults p D : py_in (SigProperty p) (map SigObject D) = false.
Proof.
  apply not_true_is_false. intros (e & He & Heq)%py_in_spec.
  apply list_elem_of_fmap in He as (a & -> & _). done.
Qed.

Lemma descriptor_of_property a sg :
  is_property a = true → descriptor_of a sg → ∃ p, sg = SigProperty p.
Proof.
  destruct a as [| | | |i g s d|]; try done. intros _.
  simpl. destruct g; try done. destruct s; try done. destruct d; try done.
  intros (p & -> & _). by exists p.
Qed.

(** The value made from a property member of the interface is a new object:
    it is equal to no value of the candidate's signature, which was built
    before. *)
Lemma property_member_not_matched st st1 st2 C I sC sI a :
  ClassSignature.__init__ C st = Ok (sC, st1) →
  ClassSignature.__init__ I st1 = Ok (sI, st2) →
  a ∈ ClassSignature.attrs sI →
  is_property a = true →
  ∃ p, SigProperty p ∈ ClassSignature.signatures sI
       ∧ py_in (SigProperty p) (ClassSignature.signatures sC) = false.
Proof.
  intros HC HI Ha Hpa.
  pose proof (ClassSignature_init_spec _ _ _ _ HC) as (_ & _ & _ & _ & HidsC & HleC).
  pose proof (ClassSignature_init_spec _ _ _ _ HI) as (_ & _ & HF & _ & HidsI & _).
  apply list_elem_of_lookup in Ha as [i Hi].
  destruct (Forall2_lookup_l _ _ _ _ _ HF Hi) as (sg & Hsg & Hdesc).
  destruct (descriptor_of_property _ _ Hpa Hdesc) as [p ->].
  assert (SigProperty p ∈ ClassSignature.signatures sI) as Hin
    by (apply list_elem_of_lookup; eauto).
  exists p. split; [done|].
  apply (py_in_new_property _ _ _ _ HidsC).
  apply property_ids_elem in Hin. rewrite HidsI in Hin.
  apply elem_of_seq in Hin. lia.
Qed.

(** What a positive answer of the check tells: both signatures were built,
    the loop of the branch taken answered true, and the interface has no
    property among its members. *)
Lemma isConformant_true_inv st C I :
  eval (isConformant C I) st = Ok true →
  ∃ sC st1 sI st2 c,
    ClassSignature.__init__ C st = Ok (sC, st1)
    ∧ ClassSignature.__init__ I st1 = Ok (sI, st2)
    ∧ classes st !! C = Some c
    ∧ (if bool_decide (I ∈ c_bases c)
       then ClassSignature.implements_loop (ClassSignature.signatures sC)
              (ClassSignature.default_attrs sI) (ClassSignature.signatures sI)
       else ClassSignature.contains_loop (ClassSignature.signatures sC)
              (ClassSignature.signatures sI)) = true
    ∧ Forall (λ a, is_property a = false) (ClassSignature.attrs sI).
Proof.
  unfold eval.
  destruct (isConformant C I st) as [[b st2]|e] eqn:E; [|done].
  intros [= ->]. pose proof E as E'. unfold isConformant in E'.
  apply bind_Ok in E' as (sC & st1 & HC & E').
  destruct (ClassSignature_init_class _ _ _ _ HC) as [c Hc].
  destruct (ClassSignature.__init__ I st1) as [[sI st2']|e] eqn:HI.
  2: { by rewrite (implements_Raise sC (inr I) st1 e HI) in E'. }
  clear E'. rewrite (isConformant_unfold _ _ _ _ _ _ _ _ HC HI Hc) in E.
  injection E as E _.
  exists sC, st1, sI, st2', c. repeat split; try done.
  apply Forall_forall. intros a Ha.
  destruct (is_property a) eqn:Hpa; [|done].
  destruct (property_member_not_matched _ _ _ _ _ _ _ _ HC HI Ha Hpa) as (p & Hin & Hnot).
  destruct (bool_decide _).
  - destruct (proj1 (implements_loop_spec _ _ _) E _ Hin) as [H|H]; [congruence|].
    by rewrite py_in_property_defaults in H.
  - pose proof (proj1 (contains_loop_spec _ _) E _ Hin). congruence.
Qed.

(** X7.  An interface that has a property among its members is implemented
    by no type at all, declared child or not: the query never answers
    true. *)
Theorem interface_with_property_is_never_implemented
    (st : state) (candidate interface : nat) (attrs : list pyobj) :
  get_non_dunder_attrs interface st = Ok (attrs, st) →
  Exists (λ a, is_property a = true) attrs →
  eval (isConformant candidate interface) st ≠ Ok true.
Proof.
  intros Hattrs Hprop H.
  destruct (isConformant_true_inv _ _ _ H) as (sC & st1 & sI & st2 & c & HC & HI & _ & _ & HF).
  pose proof (ClassSignature_init_spec _ _ _ _ HC) as (HclC & _).
  pose proof (ClassSignature_init_spec _ _ _ _ HI) as (_ & HattrsI & _).
  rewrite (get_non_dunder_attrs_table st st1 _ _ HclC Hattrs) in HattrsI.
  injection HattrsI as HattrsI. rewrite <- HattrsI in HF.
  apply Exists_exists in Hprop as (a & Ha & Hpa).
  pose proof (proj1 (Forall_forall _ _) HF a Ha). congruence.
Qed.

Lemma interface_with_property_witness :
  get_non_dunder_attrs 12 world
  = Ok (ClassSignature.attrs (signature_in world 12), world)
  ∧ Exists (λ a, is_property a = true) (ClassSignature.attrs (signature_in world 12))
  ∧ eval (isConformant 13 12) world ≠ Ok true.
Proof.
  assert (get_non_dunder_attrs 12 world
          = Ok (ClassSignature.attrs (signature_in world 12), world)) as H
    by (vm_compute; reflexivity).
  assert (Exists (λ a, is_property a = true)
            (ClassSignature.attrs (signature_in world 12))) as HE
    by (vm_compute; by apply Exists_cons_hd).
  exact (conj H (conj HE
    (interface_with_property_is_never_implemented world 13 12 _ H HE))).
Defined.

(** ** How the queries of [ClassSignature] relate *)

Lemma py_eq_sym a b : py_eq a b = py_eq b a.
Proof.
  destruct a, b; simpl; try done; apply bool_decide_ext; split; congruence.
Qed.

Lemma sig_eq_sym a b : sig_eq a b = sig_eq b a.
Proof.
  destruct a, b; simpl; try done;
    first [apply py_eq_sym | apply bool_decide_ext; split; congruence].
Qed.

Lemma contains_loop_trans A B C :
  ClassSignature.contains_loop A B = true →
  ClassSignature.contains_loop B C = true →
  ClassSignature.contains_loop A C = true.
Proof.
  intros HAB HBC. apply contains_loop_spec. intros d Hd.
  apply (py_in_extend d _ _ HAB). by apply (proj1 (contains_loop_spec _ _) HBC).
Qed.

(** X8.  [contains] is a preorder on signatures: every signature contains
    itself, and containment composes. *)
Theorem contains_preorder (st : state) (a b c : ClassSignature.t) :
  eval (ClassSignature.contains a (inl b)) st = Ok true →
  eval (ClassSignature.contains b (inl c)) st = Ok true →
  eval (ClassSignature.contains a (inl c)) st = Ok true
  ∧ eval (ClassSignature.contains a (inl a)) st = Ok true.
Proof.
  unfold eval. rewrite !contains_inl. intros [= Hab] [= Hbc]. split; f_equal.
  - by apply (contains_loop_trans _ _ _ Hab Hbc).
  - apply contains_loop_refl.
Qed.

Lemma contains_preorder_witness :
  eval (ClassSignature.contains (signature_in world cTestA_extra)
          (inl (signature_in world cTestA))) world = Ok true
  ∧ eval (ClassSignature.contains (signature_in world cTestA)
            (inl (signature_in world cTestInterface))) world = Ok true
  ∧ eval (ClassSignature.contains (signature_in world cTestA_extra)
            (inl (signature_in world cTestInterface))) world = Ok true.
Proof.
  assert (eval (ClassSignature.contains (signature_in world cTestA_extra)
                  (inl (signature_in world cTestA))) world = Ok true) as H1
    by (vm_compute; reflexivity).
  assert (eval (ClassSignature.contains (signature_in world cTestA)
                  (inl (signature_in world cTestInterface))) world = Ok true) as H2
    by (vm_compute; reflexivity).
  exact (conj H1 (conj H2 (proj1 (contains_preorder _ _ _ _ H1 H2)))).
Defined.

(** X9.  Full containment is enough on either branch: a signature that
    contains the interface implements it, whether or not its class declares
    the interface as a parent. *)
Theorem contains_implies_implements
    (st : state) (self : ClassSignature.t) (interface : ClassSignature.t + nat)
    (c : class_obj) :
  classes st !! ClassSignature.cls self = Some c →
  eval (ClassSignature.contains self interface) st = Ok true →
  eval (ClassSignature.implements self interface) st = Ok true.
Proof.
  intros Hc. unfold eval, ClassSignature.contains.
  destruct (ClassSignature.of_target interface st) as [[sI st2]|e] eqn:Ht.
  2: { by rewrite (bind_Raise _ _ _ _ Ht). }
  rewrite (bind_step _ _ _ _ _ Ht), (implements_unfold _ _ _ _ _ _ Ht Hc).
  unfold ret. intros [= H]. f_equal. destruct (bool_decide _); [|done].
  apply implements_loop_spec. intros d Hd. left.
  by apply (proj1 (contains_loop_spec _ _) H).
Qed.

Lemma contains_implies_implements_witness :
  classes world !! ClassSignature.cls (signature_in world cTestE)
  = Some (class_at world cTestE)
  ∧ eval (ClassSignature.contains (signature_in world cTestE) (inr cTestInterface)) world
    = Ok true
  ∧ eval (ClassSignature.implements (signature_in world cTestE) (inr cTestInterface)) world
    = Ok true.
Proof.
  assert (classes world !! ClassSignature.cls (signature_in world cTestE)
          = Some (class_at world cTestE)) as H1 by (vm_compute; reflexivity).
  assert (eval (ClassSignature.contains (signature_in world cTestE)
                  (inr cTestInterface)) world = Ok true) as H2
    by (vm_compute; reflexivity).
  exact (conj H1 (conj H2 (contains_implies_implements _ _ _ _ H1 H2))).
Defined.

(** X10.  An interface without ordinary members is implemented by every
    type whose signature can be built. *)
Theorem empty_interface_is_implemented_by_all
    (st st1 : state) (candidate interface : nat) (sC : ClassSignature.t) :
  ClassSignature.__init__ candidate st = Ok (sC, st1) →
  get_non_dunder_attrs interface st = Ok ([], st) →
  eval (isConformant candidate interface) st = Ok true.
Proof.
  intros HC HI.
  destruct (ClassSignature_init_class _ _ _ _ HC) as [c Hc].
  pose proof (keeps_ClassSignature_init _ _ _ _ HC) as Hcl.
  assert (ClassSignature.__init__ interface st1
          = Ok (ClassSignature.mk interface [] [] [], st1)) as HI1.
  { unfold ClassSignature.__init__.
    by rewrite (bind_step _ _ _ _ _ (get_non_dunder_attrs_table _ _ _ _ Hcl HI)). }
  unfold eval. rewrite (isConformant_unfold _ _ _ _ _ _ _ _ HC HI1 Hc). simpl.
  by destruct (bool_decide _).
Qed.

Lemma empty_interface_witness :
  ClassSignature.__init__ cDuck world
  = Ok (signature_in world cDuck, exec (ClassSignature.__init__ cDuck) world)
  ∧ get_non_dunder_attrs 14 world = Ok ([], world)
  ∧ eval (isConformant cDuck 14) world = Ok true.
Proof.
  assert (ClassSignature.__init__ cDuck world
          = Ok (signature_in world cDuck, exec (ClassSignature.__init__ cDuck) world)) as H1
    by (vm_compute; reflexivity).
  assert (get_non_dunder_attrs 14 world = Ok ([], world)) as H2
    by (vm_compute; reflexivity).
  exact (conj H1 (conj H2 (empty_interface_is_implemented_by_all _ _ _ _ _ H1 H2))).
Defined.

Lemma py_list_eq_sym a b : py_list_eq a b = py_list_eq b a.
Proof.
  revert b. induction a as [|x a IH]; intros [|y b]; simpl; try done.
  by rewrite sig_eq_sym, IH.
Qed.

Lemma py_list_eq_refl a : py_list_eq a a = true.
Proof. induction a as [|x a IH]; simpl; [done|]. by rewrite sig_eq_refl, IH. Qed.

Lemma py_list_eq_Forall2 a b :
  py_list_eq a b = true ↔ Forall2 (λ x y, sig_eq x y = true) a b.
Proof.
  revert b. induction a as [|x a IH]; intros [|y b]; simpl.
  - split; [constructor|done].
  - split; [done|]. intros H. inversion H.
  - split; [done|]. intros H. inversion H.
  - rewrite andb_true_iff, IH. split.
    + intros [? ?]. by constructor.
    + intros H. by inversion H.
Qed.

(** X11.  [equals] holds of a signature and itself and does not depend on
    the order of its arguments.  When it holds, the two signatures have the
    same number of members, equal position by position, and each contains
    the other; the converse fails, since [equals] compares in order and
    [contains] does not. *)
Theorem equals_is_positional (st : state) (a b : ClassSignature.t) :
  eval (ClassSignature.equals a (inl b)) st = Ok true →
  eval (ClassSignature.equals b (inl a)) st = Ok true
  ∧ eval (ClassSignature.equals a (inl a)) st = Ok true
  ∧ Forall2 (λ x y, sig_eq x y = true)
            (ClassSignature.signatures a) (ClassSignature.signatures b)
  ∧ eval (ClassSignature.contains a (inl b)) st = Ok true
  ∧ eval (ClassSignature.contains b (inl a)) st = Ok true.
Proof.
  unfold eval. rewrite !contains_inl.
  unfold ClassSignature.equals, ClassSignature.of_target, bind, ret.
  intros [= H].
  pose proof (proj1 (py_list_eq_Forall2 _ _) H) as HF.
  split; [by rewrite py_list_eq_sym, H|]. split; [by rewrite py_list_eq_refl|].
  split; [done|]. split; f_equal; apply contains_loop_spec; intros d Hd.
  - apply list_elem_of_lookup in Hd as [i Hi].
    destruct (Forall2_lookup_r _ _ _ _ _ HF Hi) as (x & Hx & Hxd).
    apply py_in_spec. exists x. split; [|done]. apply list_elem_of_lookup. eauto.
  - apply list_elem_of_lookup in Hd as [i Hi].
    destruct (Forall2_lookup_l _ _ _ _ _ HF Hi) as (y & Hy & Hdy).
    apply py_in_spec. exists y. split; [apply list_elem_of_lookup; eauto|].
    by rewrite sig_eq_sym.
Qed.

Lemma equals_is_positional_witness :
  eval (ClassSignature.equals (signature_in world cTestE)
          (inl (signature_in world cTestInterface))) world = Ok true
  ∧ eval (ClassSignature.equals (signature_in world cTestInterface)
            (inl (signature_in world cTestE))) world = Ok true.
Proof.
  assert (eval (ClassSignature.equals (signature_in world cTestE)
                  (inl (signature_in world cTestInterface))) world = Ok true) as H
    by (vm_compute; reflexivity).
  exact (conj H (proj1 (equals_is_positional _ _ _ H))).
Defined.

(** [contains] in both directions does not give [equals]: a signature with
    one member repeated contains and is contained in the signature with the
    member once. *)
Example contains_both_ways_not_equals :
  let a := ClassSignature.mk 0 [] [SigObject (PyInt 1)] [] in
  let b := ClassSignature.mk 0 [] [SigObject (PyInt 1); SigObject (PyInt 1)] [] in
  eval (ClassSignature.contains a (inl b)) initial_state = Ok true
  ∧ eval (ClassSignature.contains b (inl a)) initial_state = Ok true
  ∧ eval (ClassSignature.equals a (inl b)) initial_state = Ok false.
Proof. by repeat split. Qed.

(** ** [bases] *)

(** X12.  [bases(cls, parent)] builds the signatures of both classes before
    it answers: when the parent's signature cannot be built the error comes
    out, although the answer depends on neither signature; otherwise the
    answer is whether [parent] is one of the immediate parents of [cls],
    with no regard to farther ancestors. *)
Theorem bases_immediate_parent
    (st st1 : state) (cls parent : nat) (sC : ClassSignature.t) (c : class_obj) :
  ClassSignature.__init__ cls st = Ok (sC, st1) →
  classes st !! cls = Some c →
  bases cls parent st
  = match ClassSignature.__init__ parent st1 with
    | Ok (_, st2) => Ok (bool_decide (parent ∈ c_bases c), st2)
    | Raise e => Raise e
    end.
Proof.
  intros HC Hc. unfold bases. rewrite (bind_step _ _ _ _ _ HC).
  unfold ClassSignature.bases.
  change (ClassSignature.of_target (inr parent)) with (ClassSignature.__init__ parent).
  destruct (ClassSignature.__init__ parent st1) as [[sP st2]|e] eqn:HP.
  - rewrite (bind_step _ _ _ _ _ HP).
    assert (lookup_class (ClassSignature.cls sC) st2 = Ok (c, st2)) as Hl.
    { unfold lookup_class.
      rewrite (ClassSignature_init_cls _ _ _ _ HC),
        (keeps_ClassSignature_init _ _ _ _ HP), (keeps_ClassSignature_init _ _ _ _ HC).
      by rewrite Hc. }
    rewrite (bind_step _ _ _ _ _ Hl). unfold ret.
    by rewrite (ClassSignature_init_cls _ _ _ _ HP).
  - by apply bind_Raise.
Qed.

Lemma bases_immediate_parent_witness :
  ClassSignature.__init__ cTestA world
  = Ok (signature_in world cTestA, exec (ClassSignature.__init__ cTestA) world)
  ∧ classes world !! cTestA = Some (class_at world cTestA)
  ∧ eval (bases cTestA cTestInterface) world = Ok true
  ∧ eval (bases cTestA 0) world = Ok false.
Proof.
  assert (ClassSignature.__init__ cTestA world
          = Ok (signature_in world cTestA, exec (ClassSignature.__init__ cTestA) world)) as H1
    by (vm_compute; reflexivity).
  assert (classes world !! cTestA = Some (class_at world cTestA)) as H2
    by (vm_compute; reflexivity).
  refine (conj H1 (conj H2 (conj _ _))); unfold eval;
    rewrite (bases_immediate_parent _ _ _ _ _ _ H1 H2); vm_compute; reflexivity.
Defined.

(** ** The declared-parent branch and inherited members *)

Lemma py_in_defaults d D :
  py_in d (map SigObject D) = true ↔ ∃ a, a ∈ D ∧ sig_eq (SigObject a) d = true.
Proof.
  rewrite py_in_spec. split.
  - intros (e & (a & -> & Ha)%list_elem_of_fmap & Heq). eauto.
  - intros (a & Ha & Heq). exists (SigObject a). split; [|done].
    apply list_elem_of_fmap. eauto.
Qed.

(** X15.  For a candidate that lists the interface among its immediate
    parents, the check returns, and it returns true exactly when every
    value of the interface's signature is equal to a value of the
    candidate's signature or to one of the interface's attributes that
    carry [__defaultmethod__], taken as it is.  A signature made from a
    function is never such an attribute, so only a tagged attribute that is
    its own signature is exempt. *)
Theorem declared_child_needs_every_descriptor_or_tagged_object
    (st st1 st2 : state) (C I : nat) (sC sI : ClassSignature.t) (c : class_obj) :
  ClassSignature.__init__ C st = Ok (sC, st1) →
  ClassSignature.__init__ I st1 = Ok (sI, st2) →
  classes st !! C = Some c →
  I ∈ c_bases c →
  ∃ b, eval (isConformant C I) st = Ok b
       ∧ (b = true ↔
          ∀ d, d ∈ ClassSignature.signatures sI →
               (∃ d', d' ∈ ClassSignature.signatures sC ∧ sig_eq d' d = true)
               ∨ (∃ a, a ∈ ClassSignature.attrs sI
                       ∧ has_defaultmethod a = true
                       ∧ callable a = false
                       ∧ sig_eq (SigObject a) d = true)).
Proof.
  intros HC HI Hc Hin. eexists. split.
  - unfold eval. rewrite (isConformant_unfold _ _ _ _ _ _ _ _ HC HI Hc).
    rewrite bool_decide_eq_true_2 by done. reflexivity.
  - pose proof (ClassSignature_init_spec _ _ _ _ HI)
      as (_ & _ & HF & Hdef & _).
    assert (∀ o, SigObject o ∈ ClassSignature.signatures sI → callable o = false) as Hobj.
    { unfold ClassSignature.__init__ in HI. inv_M. simpl.
      eauto using mapM_universal_signature_SigObject. }
    rewrite implements_loop_spec. split; intros H d Hd.
    + destruct (H d Hd) as [H1|H1]; [left; by apply py_in_spec|right].
      apply py_in_defaults in H1 as (a & Ha & Heq). rewrite Hdef in Ha.
      apply list_elem_of_filter in Ha as [Hta Ha]. exists a.
      split; [done|]. split; [by apply Is_true_true|]. split; [|done].
      destruct d as [| |o]; try done. specialize (Hobj o Hd).
      destruct a, o; simpl in *; congruence.
    + destruct (H d Hd) as [H1|(a & Ha & Hta & _ & Heq)]; [left; by apply py_in_spec|].
      right. apply py_in_defaults. exists a. split; [|done].
      rewrite Hdef. apply list_elem_of_filter. split; [by apply Is_true_true|done].
Qed.

Lemma declared_child_witness :
  ClassSignature.__init__ cTestA world
  = Ok (signature_in world cTestA, exec (ClassSignature.__init__ cTestA) world)
  ∧ ClassSignature.__init__ cTestInterface (exec (ClassSignature.__init__ cTestA) world)
    = Ok (signature_in world cTestInterface, world)
  ∧ classes world !! cTestA = Some (class_at world cTestA)
  ∧ cTestInterface ∈ c_bases (class_at world cTestA)
  ∧ ∃ b, eval (isConformant cTestA cTestInterface) world = Ok b.
Proof.
  assert (ClassSignature.__init__ cTestA world
          = Ok (signature_in world cTestA, exec (ClassSignature.__init__ cTestA) world)) as H1
    by (vm_compute; reflexivity).
  assert (ClassSignature.__init__ cTestInterface (exec (ClassSignature.__init__ cTestA) world)
          = Ok (signature_in world cTestInterface, world)) as H2
    by (vm_compute; reflexivity).
  assert (classes world !! cTestA = Some (class_at world cTestA)) as H3
    by (vm_compute; reflexivity).
  assert (cTestInterface ∈ c_bases (class_at world cTestA)) as H4
    by (vm_compute; apply list_elem_of_here).
  refine (conj H1 (conj H2 (conj H3 (conj H4 _)))).
  destruct (declared_child_needs_every_descriptor_or_tagged_object
              _ _ _ _ _ _ _ _ H1 H2 H3 H4) as (b & Hb & _).
  by exists b.
Defined.

Lemma ClassSignature_init_plain st cls attrs :
  get_non_dunder_attrs cls st = Ok (attrs, st) →
  Forall (λ a, is_property a = false) attrs →
  ClassSignature.__init__ cls st
  = Ok (ClassSignature.mk cls attrs (map plain_signature attrs)
          (filter (λ i, has_defaultmethod i) attrs), st).
Proof.
  intros Hattrs Hplain. unfold ClassSignature.__init__.
  rewrite (bind_step _ _ _ _ _ Hattrs).
  by rewrite (bind_step _ _ _ _ _ (mapM_universal_signature_plain attrs st Hplain)).
Qed.





(** ** Explicit subclasses *)

















(** * Conformance stated on members *)

(** ** Matching members and equal values *)

Lemma member_matches_spec a' a :
  member_matches a' a = true ↔
  is_property a' = false ∧ is_property a = false
  ∧ sig_eq (plain_signature a') (plain_signature a) = true.
Proof.
  destruct a', a; simpl; split; try done;
    first [by intros (? & ? & ?) | intros ?; by repeat split].
Qed.

Lemma member_matches_trans a b c :
  member_matches a b = true → member_matches b c = true → member_matches a c = true.
Proof.
  rewrite !member_matches_spec. intros (Ha & _ & Hab) (_ & Hc & Hbc).
  eauto using sig_eq_trans.
Qed.

Lemma descriptor_of_plain a sg :
  is_property a = false → descriptor_of a sg → sg = plain_signature a.
Proof. by destruct a. Qed.

(** The value of a member that is not a property is equal to a value of a
    built signature exactly when the member matches one of the members the
    signature was built from. *)
Lemma py_in_plain_iff attrs sigs a :
  Forall2 descriptor_of attrs sigs →
  is_property a = false →
  py_in (plain_signature a) sigs = true
  ↔ ∃ a', a' ∈ attrs ∧ member_matches a' a = true.
Proof.
  intros HF Hpa. rewrite py_in_spec. split.
  - intros (e & He & Heq). apply list_elem_of_lookup in He as [i Hi].
    destruct (Forall2_lookup_r _ _ _ _ _ HF Hi) as (a' & Ha' & Hdesc).
    exists a'. split; [apply list_elem_of_lookup; eauto|].
    apply member_matches_spec.
    destruct (is_property a') eqn:Hpa'.
    + destruct (descriptor_of_property _ _ Hpa' Hdesc) as [p ->]. by destruct a.
    + by rewrite <- (descriptor_of_plain _ _ Hpa' Hdesc).
  - intros (a' & Ha' & (Hpa' & _ & Heq)%member_matches_spec).
    apply list_elem_of_lookup in Ha' as [i Hi].
    destruct (Forall2_lookup_l _ _ _ _ _ HF Hi) as (e & He & Hdesc).
    exists e. split; [apply list_elem_of_lookup; eauto|].
    by rewrite (descriptor_of_plain _ _ Hpa' Hdesc).
Qed.

(** The values of a signature built from members none of which is a
    property. *)
Lemma signatures_plain attrs sigs :
  Forall2 descriptor_of attrs sigs →
  Forall (λ a, is_property a = false) attrs →
  sigs = map plain_signature attrs.
Proof.
  induction 1 as [|a sg attrs sigs Hd _ IH]; [done|].
  intros [Ha Hrest]%Forall_cons. simpl.
  by rewrite (descriptor_of_plain _ _ Ha Hd), (IH Hrest).
Qed.

Lemma members_extend_spec attrs' attrs a :
  members_extend attrs' attrs = true →
  a ∈ attrs →
  is_property a = false →
  ∃ a', a' ∈ attrs' ∧ member_matches a' a = true.
Proof.
  unfold members_extend. intros H Ha%list_elem_of_In Hpa.
  pose proof (proj1 (forallb_forall _ _) H a Ha) as Hex. simpl in Hex.
  rewrite Hpa in Hex. apply existsb_exists in Hex as (a' & Ha' & Hm).
  exists a'. by rewrite list_elem_of_In.
Qed.

(** ** Candidates without the interface as a declared parent *)




(** ** Candidates with more members *)

(** C9 (as the code has it).  When a candidate conforms to an interface, so
    does every candidate whose signature can be built, that lists the
    interface among its immediate parents if the first one does, and that
    has a matching member for each member of the first one that is not a
    property. *)
Theorem C9_extended_candidate_keeps_conformance
    (st st1 st1' : state) (C C' I : nat) (sC sC' : ClassSignature.t)
    (c c' : class_obj) :
  classes st !! C = Some c →
  classes st !! C' = Some c' →
  (I ∈ c_bases c → I ∈ c_bases c') →
  ClassSignature.__init__ C st = Ok (sC, st1) →
  ClassSignature.__init__ C' st = Ok (sC', st1') →
  members_extend (ClassSignature.attrs sC') (ClassSignature.attrs sC) = true →
  eval (isConformant C I) st = Ok true →
  eval (isConformant C' I) st = Ok true.
Proof.
  intros Hc Hc' Hb HC HC' Hext H.
  destruct (isConformant_true_inv _ _ _ H)
    as (sC0 & st0 & sI & st2 & c0 & HC0 & HI & Hc0 & Hloop & Hplain).
  rewrite HC in HC0. injection HC0 as <- <-.
  rewrite Hc in Hc0. injection Hc0 as <-.
  pose proof (ClassSignature_init_spec _ _ _ _ HC) as (Hcl & _ & HFC & _).
  pose proof (ClassSignature_init_spec _ _ _ _ HC') as (Hcl' & _ & HFC' & _).
  pose proof (ClassSignature_init_spec _ _ _ _ HI) as (_ & HattrsI & HFI & HdefI & _).
  assert (classes st1' = classes st1) as Hcl1 by congruence.
  pose proof (ClassSignature_init_plain st1' I _
                (get_non_dunder_attrs_table _ _ _ _ Hcl1 HattrsI) Hplain) as HI'.
  unfold eval. rewrite (isConformant_unfold _ _ _ _ _ _ _ _ HC' HI' Hc'). simpl.
  rewrite HdefI, (signatures_plain _ _ HFI Hplain) in Hloop.
  assert (∀ d, d ∈ map plain_signature (ClassSignature.attrs sI) →
               py_in d (ClassSignature.signatures sC) = true →
               py_in d (ClassSignature.signatures sC') = true) as Hstep.
  { intros d (a & -> & Ha)%list_elem_of_fmap Hin.
    pose proof (proj1 (Forall_forall _ _) Hplain a Ha) as Hpa.
    apply (py_in_plain_iff _ _ _ HFC Hpa) in Hin as (a1 & Ha1 & Hm1).
    apply (py_in_plain_iff _ _ _ HFC' Hpa).
    pose proof (proj1 (member_matches_spec _ _) Hm1) as (Hpa1 & _).
    destruct (members_extend_spec _ _ _ Hext Ha1 Hpa1) as (a2 & Ha2 & Hm2).
    exists a2. eauto using member_matches_trans. }
  f_equal. destruct (bool_decide (I ∈ c_bases c)) eqn:E.
  - apply bool_decide_eq_true in E. rewrite bool_decide_eq_true_2 by auto.
    apply implements_loop_spec. intros d Hd.
    destruct (proj1 (implements_loop_spec _ _ _) Hloop d Hd) as [H1|H1];
      [left; by apply Hstep|by right].
  - pose proof (proj1 (contains_loop_spec _ _) Hloop) as Hall.
    destruct (bool_decide (I ∈ c_bases c')).
    + apply implements_loop_spec. intros d Hd. left. apply Hstep; auto.
    + apply contains_loop_spec. intros d Hd. apply Hstep; auto.
Qed.

Lemma C9_witness :
  classes gauges !! cGauge = Some (class_at gauges cGauge)
  ∧ classes gauges !! cGaugePlus = Some (class_at gauges cGaugePlus)
  ∧ (cRunner ∈ c_bases (class_at gauges cGauge) →
     cRunner ∈ c_bases (class_at gauges cGaugePlus))
  ∧ ClassSignature.__init__ cGauge gauges
    = Ok (signature_in gauges cGauge, exec (ClassSignature.__init__ cGauge) gauges)
  ∧ ClassSignature.__init__ cGaugePlus gauges
    = Ok (signature_in gauges cGaugePlus, exec (ClassSignature.__init__ cGaugePlus) gauges)
  ∧ members_extend (ClassSignature.attrs (signature_in gauges cGaugePlus))
                   (ClassSignature.attrs (signature_in gauges cGauge)) = true
  ∧ Exists (λ a, is_property a = true) (ClassSignature.attrs (signature_in gauges cGauge))
  ∧ eval (isConformant cGauge cRunner) gauges = Ok true
  ∧ eval (isConformant cGaugePlus cRunner) gauges = Ok true.
Proof.
  assert (classes gauges !! cGauge = Some (class_at gauges cGauge)) as H1
    by (vm_compute; reflexivity).
  assert (classes gauges !! cGaugePlus = Some (class_at gauges cGaugePlus)) as H2
    by (vm_compute; reflexivity).
  assert (cRunner ∈ c_bases (class_at gauges cGauge) →
          cRunner ∈ c_bases (class_at gauges cGaugePlus)) as H3
    by (intros _; vm_compute; apply list_elem_of_here).
  assert (ClassSignature.__init__ cGauge gauges
          = Ok (signature_in gauges cGauge, exec (ClassSignature.__init__ cGauge) gauges))
    as H4 by (vm_compute; reflexivity).
  assert (ClassSignature.__init__ cGaugePlus gauges
          = Ok (signature_in gauges cGaugePlus,
                exec (ClassSignature.__init__ cGaugePlus) gauges))
    as H5 by (vm_compute; reflexivity).
  assert (members_extend (ClassSignature.attrs (signature_in gauges cGaugePlus))
                         (ClassSignature.attrs (signature_in gauges cGauge)) = true) as H6
    by (vm_compute; reflexivity).
  assert (Exists (λ a, is_property a = true)
                 (ClassSignature.attrs (signature_in gauges cGauge))) as H7
    by (vm_compute; apply Exists_cons_tl, Exists_cons_hd; reflexivity).
  assert (eval (isConformant cGauge cRunner) gauges = Ok true) as H8
    by (vm_compute; reflexivity).
  exact (conj H1 (conj H2 (conj H3 (conj H4 (conj H5 (conj H6 (conj H7 (conj H8
    (C9_extended_candidate_keeps_conformance _ _ _ _ _ _ _ _ _ _ H1 H2 H3 H4 H5 H6 H8))))))))).
Defined.

(** C9, counterexample.  The one member of the interface [Tagged] is an
    object that is not a function, tagged default.  [Child] declares
    [Tagged] and sets [tag = 5]: it conforms, since the tagged object is
    exempt for a declared child.  [Stranger] declares nothing and has
    [tag = 5] and one member more, so its signature contains that of
    [Child]; it does not conform, since without the declared parent nothing
    is exempt. *)
Lemma C9_extended_candidate_without_parent_fails :
  eval (let* T := Scenarios.Tag in
        let* I := Scenarios.Tagged T in
        let* C := Scenarios.Child I in
        let* C' := Scenarios.Stranger in
        let* names := member_names C in
        let* names' := member_names C' in
        let* sC := ClassSignature.__init__ C in
        let* sC' := ClassSignature.__init__ C' in
        let* ext := ClassSignature.contains sC' (inl sC) in
        let* r := isConformant C I in
        let* r' := isConformant C' I in
        ret (names, names', ext, r, r')) initial_state
  = Ok (["tag"], ["extra"; "tag"], true, true, false).
Proof. vm_compute. reflexivity. Qed.
